(** * Aztlanex wallet and RPC glue: a shallow embedding

    The TypeScript sources are browser-side glue: a wallet connector
    ([azguard-client.ts]), a JSON-RPC client with contract wrappers
    ([aztec-contracts.ts]), a sponsored wallet ([aztec-client.ts]) and an
    account-abstraction stub.  Every routine is a sequence of host calls
    (fetch, console, crypto, Math.random, the wallet extension) wrapped in
    try/catch.  The embedding keeps that shape: host calls are operations of
    a state-and-exception monad over an explicit [World], and each method is
    transcribed statement by statement. *)

From Stdlib Require Import ZArith List String Ascii Bool Lia PrimFloat.
From Stdlib.Strings Require Import Byte.
From Stdlib Require Import HexString DecimalString.
Import ListNotations.

Set Warnings "-register-all".

Local Open Scope string_scope.
Local Open Scope Z_scope.

(** ** JavaScript values and the library routines the sources call *)

Module JS.

(** Strings are sequences of code units; the model keeps the code units
    below 256 (Rocq's [string]).  Numbers are IEEE-754 doubles.  An object
    lists its own properties, each key once. *)
Inductive Value : Type :=
| VUndefined
| VNull
| VBool (b : bool)
| VNum (x : float)
| VStr (s : string)
| VArr (items : list Value)
| VObj (fields : list (string * Value)).

(** Implementation-defined conversions of the host engine.  The language
    standard fixes neither the digits [Number.prototype.toString(16)] prints
    for a fraction nor those [parseInt] keeps of a long numeral, so they are
    taken from the engine in use. *)
Record Engine : Type := {
  numberToString : float -> string;        (* Number::toString, radix 10 *)
  numberToStringRadix16 : float -> string; (* Number.prototype.toString(16) *)
  parseIntOfString : string -> float       (* parseInt applied to a string *)
}.

(** Exceptions: [throw] accepts any value; [Error] objects carry a message. *)
Inductive Thrown : Type :=
| ErrorObject (name message : string)
| ThrownValue (v : Value).

Inductive Completion (A : Type) : Type :=
| Normal (a : A)
| Abrupt (e : Thrown).
Arguments Normal {A} a.
Arguments Abrupt {A} e.

Definition TypeError (message : string) : Thrown := ErrorObject "TypeError" message.
Definition Error (message : string) : Thrown := ErrorObject "Error" message.

(** [err instanceof Error ? err.message : fallback] *)
Definition messageOr (fallback : string) (err : Thrown) : string :=
  match err with
  | ErrorObject _ message => message
  | ThrownValue _ => fallback
  end.

(** ToBoolean *)
Definition truthy (v : Value) : bool :=
  match v with
  | VUndefined | VNull => false
  | VBool b => b
  | VNum x => negb (PrimFloat.eqb x 0%float) && PrimFloat.eqb x x
  | VStr s => negb (String.eqb s "")
  | VArr _ | VObj _ => true
  end.

(** [a || b] *)
Definition or_else (a b : Value) : Value := if truthy a then a else b.

Fixpoint lookup (key : string) (fields : list (string * Value)) : option Value :=
  match fields with
  | [] => None
  | (k, v) :: rest => if String.eqb k key then Some v else lookup key rest
  end.

Definition hasOwn (key : string) (v : Value) : bool :=
  match v with
  | VObj fields => match lookup key fields with Some _ => true | None => false end
  | _ => false
  end.

(** [v.key] for the property names the sources read ([error], [message],
    [result], [address], [transactionHash]): none is defined on a prototype,
    so the read finds an own property of an object or [undefined]; reading a
    property of [null] or [undefined] throws. *)
Definition getProp (v : Value) (key : string) : Completion Value :=
  match v with
  | VUndefined => Abrupt (TypeError ("Cannot read properties of undefined (reading '" ++ key ++ "')"))
  | VNull => Abrupt (TypeError ("Cannot read properties of null (reading '" ++ key ++ "')"))
  | VObj fields => Normal match lookup key fields with Some x => x | None => VUndefined end
  | _ => Normal VUndefined
  end.

(** [v?.key] *)
Definition getPropOpt (v : Value) (key : string) : Completion Value :=
  match v with
  | VUndefined | VNull => Normal VUndefined
  | _ => getProp v key
  end.

Definition isArray (v : Value) : bool :=
  match v with VArr _ => true | _ => false end.

(** [v.length === 0] *)
Definition lengthIsZero (v : Value) : bool :=
  match v with
  | VArr items => Nat.eqb (List.length items) 0
  | VStr s => Nat.eqb (String.length s) 0
  | VObj fields =>
      match lookup "length" fields with
      | Some (VNum x) => PrimFloat.eqb x 0%float
      | _ => false
      end
  | _ => false
  end.

(** [v[0]] of a value that is neither [null] nor [undefined] *)
Definition first (v : Value) : Value :=
  match v with
  | VArr (x :: _) => x
  | VStr (String c _) => VStr (String c "")
  | VObj fields => match lookup "0" fields with Some x => x | None => VUndefined end
  | _ => VUndefined
  end.

Section Conversions.
Variable E : Engine.

Definition joinWith (sep : string) (parts : list string) : string :=
  String.concat sep parts.

(** ToString of a value built by [JSON.parse].  An array prints its
    elements joined by commas, [null] and [undefined] elements as empty;
    a plain object prints as [[object Object]] unless it carries an own
    (hence non-callable) [toString], which leaves no primitive to
    convert to. *)
Fixpoint ToString (v : Value) : Completion string :=
  match v with
  | VUndefined => Normal "undefined"
  | VNull => Normal "null"
  | VBool true => Normal "true"
  | VBool false => Normal "false"
  | VNum x => Normal (numberToString E x)
  | VStr s => Normal s
  | VArr items =>
      let fix elements (l : list Value) : Completion (list string) :=
        match l with
        | [] => Normal []
        | x :: rest =>
            match (match x with
                   | VUndefined | VNull => Normal ""
                   | _ => ToString x
                   end) with
            | Abrupt e => Abrupt e
            | Normal s =>
                match elements rest with
                | Abrupt e => Abrupt e
                | Normal ss => Normal (s :: ss)
                end
            end
        end in
      match elements items with
      | Abrupt e => Abrupt e
      | Normal ss => Normal (joinWith "," ss)
      end
  | VObj fields =>
      match lookup "toString" fields with
      | Some _ => Abrupt (TypeError "Cannot convert object to primitive value")
      | None => Normal "[object Object]"
      end
  end.

(** [v?.toString()] *)
Definition toStringOpt (v : Value) : Completion Value :=
  match v with
  | VUndefined | VNull => Normal VUndefined
  | VObj fields =>
      match lookup "toString" fields with
      | Some _ => Abrupt (TypeError "toString is not a function")
      | None => Normal (VStr "[object Object]")
      end
  | _ => match ToString v with
         | Normal s => Normal (VStr s)
         | Abrupt e => Abrupt e
         end
  end.

(** [parseInt(v)] *)
Definition parseInt (v : Value) : Completion float :=
  match ToString v with
  | Normal s => Normal (parseIntOfString E s)
  | Abrupt e => Abrupt e
  end.
End Conversions.

(** *** String.prototype *)

(** [hay.includes(needle)] *)
Fixpoint includes (needle hay : string) : bool :=
  String.prefix needle hay
  || match hay with
     | "" => false
     | String _ rest => includes needle rest
     end.

(** [s.split(sep)] for a one-character separator *)
Fixpoint split (sep : ascii) (s : string) : list string :=
  match s with
  | "" => [""]
  | String c rest =>
      if Ascii.eqb c sep then "" :: split sep rest
      else match split sep rest with
           | [] => [String c ""]
           | part :: parts => String c part :: parts
           end
  end.

Fixpoint repeatString (pad : string) (n : nat) : string :=
  match n with
  | O => ""
  | S n' => pad ++ repeatString pad n'
  end.

(** [s.padStart(targetLength, pad)] *)
Definition padStart (targetLength : nat) (pad s : string) : string :=
  let len := String.length s in
  if (targetLength <=? len)%nat then s
  else if String.eqb pad "" then s
  else
    let fillLen := (targetLength - len)%nat in
    String.substring 0 fillLen (repeatString pad fillLen) ++ s.

(** [s.substring(start, stop)] with [start <= stop] *)
Definition substring (start stop : nat) (s : string) : string :=
  String.substring start (stop - start) s.

(** [s.charCodeAt(i)] over the whole string, in order *)
Definition charCodes (s : string) : list Z :=
  List.map (fun c => Z.of_N (N_of_ascii c)) (list_ascii_of_string s).

(** *** Numbers *)

(** ToInt32: reduce modulo 2^32 into the signed 32-bit range *)
Definition ToInt32 (z : Z) : Z :=
  let m := z mod 2 ^ 32 in
  if m >=? 2 ^ 31 then m - 2 ^ 32 else m.

(** [a << n] on 32-bit integers *)
Definition shl32 (a n : Z) : Z := ToInt32 (Z.shiftl (ToInt32 a) (n mod 32)).

(** [a & b] on 32-bit integers *)
Definition and32 (a b : Z) : Z := ToInt32 (Z.land (ToInt32 a) (ToInt32 b)).

(** [n.toString(16)] of a non-negative integer: exact lower-case digits *)
Definition integerToString16 (n : Z) : string :=
  match n with
  | Zpos p => HexString.Raw.of_pos p ""
  | _ => "0"
  end.

(** [n.toString()] of an integer, as in [`HTTP ${response.status}`] *)
Definition integerToString (n : Z) : string :=
  NilZero.string_of_int (Z.to_int n).

(** [byte.toString(16).padStart(2, '0')] *)
Definition byteToHex (b : byte) : string :=
  padStart 2 "0" (integerToString16 (Z.of_N (Byte.to_N b))).

(** ['0x' + Array.from(bytes, b => b.toString(16).padStart(2, '0')).join('')] *)
Definition bytesToHex (bytes : list byte) : string :=
  joinWith "" (List.map byteToHex bytes).

(** [Math.floor] *)
Definition Math_floor (x : float) : float :=
  let big := 4503599627370496%float in (* 2^52 *)
  if negb (PrimFloat.eqb x x) then x
  else if PrimFloat.leb big (PrimFloat.abs x) then x
  else if PrimFloat.eqb x 0%float then x
  else
    let nearest :=
      if PrimFloat.ltb 0%float x then ((x + big) - big)%float
      else ((x - big) + big)%float in
    if PrimFloat.ltb x nearest then (nearest - 1)%float else nearest.

(** [new TextEncoder().encode(s)]: UTF-8 *)
Definition utf8 (s : string) : list byte :=
  List.flat_map
    (fun c =>
       let n := N_of_ascii c in
       if (n <? 128)%N then [byte_of_ascii c]
       else
         match Byte.of_N (192 + N.shiftr n 6), Byte.of_N (128 + N.land n 63) with
         | Some hi, Some lo => [hi; lo]
         | _, _ => []
         end)
    (list_ascii_of_string s).

(** *** More of String.prototype, for the codec helpers *)

(** [s.slice(start, stop)] with non-negative arguments; empty when
    [stop <= start]. *)
Definition slice (start stop : nat) (s : string) : string :=
  String.substring start (stop - start) s.

(** [s.slice(start)] with a non-negative argument *)
Definition sliceFrom (start : nat) (s : string) : string :=
  String.substring start (String.length s - start) s.

(** [s.startsWith(head)] *)
Definition startsWith (head s : string) : bool := String.prefix head s.

(** [s.replace(pattern, replacement)] for a string pattern and a
    replacement without [$]: the first occurrence only. *)
Fixpoint replace (pattern replacement s : string) : string :=
  if String.prefix pattern s then
    replacement ++ String.substring (String.length pattern)
                     (String.length s - String.length pattern) s
  else
    match s with
    | "" => ""
    | String c rest => String c (replace pattern replacement rest)
    end.

(** [typeof v] *)
Definition typeof (v : Value) : string :=
  match v with
  | VUndefined => "undefined"
  | VNull => "object"
  | VBool _ => "boolean"
  | VNum _ => "number"
  | VStr _ => "string"
  | VArr _ | VObj _ => "object"
  end.

(** [v.toString(16)] of a value that is not a string: a number prints in
    radix 16, the other [toString] methods ignore the argument, and
    [null] and [undefined] have no method to call. *)
Definition toStringRadix16 (E : Engine) (v : Value) : Completion string :=
  match v with
  | VUndefined =>
      Abrupt (TypeError "Cannot read properties of undefined (reading 'toString')")
  | VNull => Abrupt (TypeError "Cannot read properties of null (reading 'toString')")
  | VNum x => Normal (numberToStringRadix16 E x)
  | VObj fields =>
      match lookup "toString" fields with
      | Some _ => Abrupt (TypeError "toString is not a function")
      | None => Normal "[object Object]"
      end
  | _ => ToString E v
  end.

End JS.

(** ** The host: console, network, randomness, crypto, window, wallet extension *)

Module Host.
Import JS.

(** What [fetch] resolves to; [json] is the outcome of [response.json()]. *)
Record Response : Type := {
  ok : bool;
  status : Z;
  statusText : string;
  json : Completion Value
}.

(** A request as the sources build it; [payload] is the value handed to
    [JSON.stringify] for the body. *)
Record Request : Type := {
  url : string;
  method : string;
  headers : list (string * string);
  payload : Value
}.

(** A wallet client object is shared by reference. *)
Definition ClientRef : Type := nat.

Record ClientState : Type := {
  connected : Value;
  accounts : Value
}.

Inductive Level : Type := Log | Err.

Record World : Type := {
  engine : Engine;
  (* console: level and leading text (its ASCII part) of each call, newest
     first *)
  console : list (Level * string);
  (* Math.random: the sequence it yields and how many were taken *)
  randomSource : nat -> float;
  randomTaken : nat;
  (* crypto.getRandomValues: the byte stream and how many were taken *)
  entropy : nat -> byte;
  entropyTaken : nat;
  (* fetch: the reply to the latest request given all requests so far
     (newest first), and the requests made *)
  network : list Request -> Completion Response;
  requests : list Request;
  (* crypto.subtle.digest('SHA-256', data) *)
  sha256 : list byte -> Completion (list byte);
  (* window.open and window.location.origin *)
  windowOpen : string -> string -> Completion unit;
  opened : list (string * string);
  origin : string;
  (* the wallet extension behind AzguardClient *)
  extInstalled : Completion Value;
  extCreate : Completion (option ClientRef);
  extConnect : ClientRef -> Value -> Value -> Completion ClientState;
  clients : ClientRef -> ClientState;
  (* azguard-client.ts: let azguardInstance: any = null *)
  azguardInstance : option ClientRef
}.

Definition withConsole (c : list (Level * string)) (w : World) : World :=
  {| engine := engine w; console := c; randomSource := randomSource w;
     randomTaken := randomTaken w; entropy := entropy w;
     entropyTaken := entropyTaken w; network := network w;
     requests := requests w; sha256 := sha256 w; windowOpen := windowOpen w;
     opened := opened w; origin := origin w; extInstalled := extInstalled w;
     extCreate := extCreate w; extConnect := extConnect w;
     clients := clients w; azguardInstance := azguardInstance w |}.

Definition withRandomTaken (n : nat) (w : World) : World :=
  {| engine := engine w; console := console w; randomSource := randomSource w;
     randomTaken := n; entropy := entropy w;
     entropyTaken := entropyTaken w; network := network w;
     requests := requests w; sha256 := sha256 w; windowOpen := windowOpen w;
     opened := opened w; origin := origin w; extInstalled := extInstalled w;
     extCreate := extCreate w; extConnect := extConnect w;
     clients := clients w; azguardInstance := azguardInstance w |}.

Definition withEntropyTaken (n : nat) (w : World) : World :=
  {| engine := engine w; console := console w; randomSource := randomSource w;
     randomTaken := randomTaken w; entropy := entropy w;
     entropyTaken := n; network := network w;
     requests := requests w; sha256 := sha256 w; windowOpen := windowOpen w;
     opened := opened w; origin := origin w; extInstalled := extInstalled w;
     extCreate := extCreate w; extConnect := extConnect w;
     clients := clients w; azguardInstance := azguardInstance w |}.

Definition withRequests (r : list Request) (w : World) : World :=
  {| engine := engine w; console := console w; randomSource := randomSource w;
     randomTaken := randomTaken w; entropy := entropy w;
     entropyTaken := entropyTaken w; network := network w;
     requests := r; sha256 := sha256 w; windowOpen := windowOpen w;
     opened := opened w; origin := origin w; extInstalled := extInstalled w;
     extCreate := extCreate w; extConnect := extConnect w;
     clients := clients w; azguardInstance := azguardInstance w |}.

Definition withOpened (o : list (string * string)) (w : World) : World :=
  {| engine := engine w; console := console w; randomSource := randomSource w;
     randomTaken := randomTaken w; entropy := entropy w;
     entropyTaken := entropyTaken w; network := network w;
     requests := requests w; sha256 := sha256 w; windowOpen := windowOpen w;
     opened := o; origin := origin w; extInstalled := extInstalled w;
     extCreate := extCreate w; extConnect := extConnect w;
     clients := clients w; azguardInstance := azguardInstance w |}.

Definition withClients (c : ClientRef -> ClientState) (w : World) : World :=
  {| engine := engine w; console := console w; randomSource := randomSource w;
     randomTaken := randomTaken w; entropy := entropy w;
     entropyTaken := entropyTaken w; network := network w;
     requests := requests w; sha256 := sha256 w; windowOpen := windowOpen w;
     opened := opened w; origin := origin w; extInstalled := extInstalled w;
     extCreate := extCreate w; extConnect := extConnect w;
     clients := c; azguardInstance := azguardInstance w |}.

Definition withAzguardInstance (i : option ClientRef) (w : World) : World :=
  {| engine := engine w; console := console w; randomSource := randomSource w;
     randomTaken := randomTaken w; entropy := entropy w;
     entropyTaken := entropyTaken w; network := network w;
     requests := requests w; sha256 := sha256 w; windowOpen := windowOpen w;
     opened := opened w; origin := origin w; extInstalled := extInstalled w;
     extCreate := extCreate w; extConnect := extConnect w;
     clients := clients w; azguardInstance := i |}.

(** *** Computations: a world in, a completion and a world out *)

Definition M (A : Type) : Type := World -> Completion A * World.

Definition ret {A} (a : A) : M A := fun w => (Normal a, w).

Definition bind {A B} (m : M A) (k : A -> M B) : M B :=
  fun w =>
    match m w with
    | (Normal a, w') => k a w'
    | (Abrupt e, w') => (Abrupt e, w')
    end.

Definition throw {A} (e : Thrown) : M A := fun w => (Abrupt e, w).

(** [try { body } catch (e) { handler e }]: what the body did to the world
    before it threw stays done. *)
Definition tryCatch {A} (body : M A) (handler : Thrown -> M A) : M A :=
  fun w =>
    match body w with
    | (Normal a, w') => (Normal a, w')
    | (Abrupt e, w') => handler e w'
    end.

(** Evaluate an expression that may throw but touches nothing. *)
Definition lift {A} (c : Completion A) : M A := fun w => (c, w).

Definition outcome {A} (r : Completion A * World) : Completion A := fst r.
Definition after {A} (r : Completion A * World) : World := snd r.

Definition consoleLog (text : string) : M unit :=
  fun w => (Normal tt, withConsole ((Log, text) :: console w) w).

Definition consoleError (text : string) : M unit :=
  fun w => (Normal tt, withConsole ((Err, text) :: console w) w).

(** [await fetch(url, init)] *)
Definition fetch (request : Request) : M Response :=
  fun w =>
    let sent := request :: requests w in
    (network w sent, withRequests sent w).

(** [await response.json()] *)
Definition responseJson (response : Response) : M Value :=
  lift (json response).

(** [Math.random()] *)
Definition Math_random : M float :=
  fun w => (Normal (randomSource w (randomTaken w)), withRandomTaken (S (randomTaken w)) w).

(** [crypto.getRandomValues(new Uint8Array(n))] *)
Definition getRandomValues (n : nat) : M (list byte) :=
  fun w =>
    (Normal (List.map (entropy w) (List.seq (entropyTaken w) n)),
     withEntropyTaken (entropyTaken w + n)%nat w).

(** [await crypto.subtle.digest('SHA-256', data)] *)
Definition subtleDigest (data : list byte) : M (list byte) :=
  fun w => (sha256 w data, w).

(** [window.open(url, target)] *)
Definition window_open (target_url target : string) : M unit :=
  fun w => (windowOpen w target_url target, withOpened ((target_url, target) :: opened w) w).

(** [`${v}`] *)
Definition templateString (v : Value) : M string :=
  fun w => (ToString (engine w) v, w).

End Host.

Declare Scope js_scope.
Delimit Scope js_scope with js.
Notation "x <- m ;; k" := (Host.bind m (fun x => k))
  (at level 100, m at next level, right associativity) : js_scope.
Notation "m ;; k" := (Host.bind m (fun _ => k))
  (at level 100, right associativity) : js_scope.

(** ** aztec-contracts.ts *)

Module AztecContracts.
Import JS Host.
Local Open Scope js_scope.

(** *** class AztecRPCClient *)

Record AztecRPCClient : Type := {
  rpcUrl : string
}.

(** [constructor(rpcUrl)] *)
Definition newAztecRPCClient (url : string) : AztecRPCClient :=
  {| rpcUrl := url ++ "/jsonrpc" |}.

Definition jsonHeaders : list (string * string) :=
  [("Content-Type", "application/json")].

(** The arguments of [fetch] in [simulateTransaction]. *)
Definition simulateRequest (this : AztecRPCClient)
    (contractAddress functionName : string) (params : list Value) : Request :=
  {| url := rpcUrl this;
     method := "POST";
     headers := jsonHeaders;
     payload := VObj [
       ("jsonrpc", VStr "2.0");
       ("method", VStr "aztec_simulateTransaction");
       ("params", VObj [
          ("contractAddress", VStr contractAddress);
          ("functionName", VStr functionName);
          ("args", VArr params)]);
       ("id", VNum 1)] |}.

Definition simulateTransaction (this : AztecRPCClient)
    (contractAddress functionName : string) (params : list Value) : M Value :=
  tryCatch
    (response <- fetch (simulateRequest this contractAddress functionName params) ;;
     result <- responseJson response ;;
     error <- lift (getProp result "error") ;;
     if truthy error then
       message <- lift (getProp error "message") ;;
       text <- templateString message ;;
       throw (Error ("Simulation error: " ++ text))
     else
       lift (getProp result "result"))
    (fun error =>
       consoleError ("Simulation failed for " ++ functionName ++ ":") ;;
       throw error).

(** The arguments of [fetch] in [getBlockNumber]. *)
Definition blockNumberRequest (this : AztecRPCClient) : Request :=
  {| url := rpcUrl this;
     method := "POST";
     headers := jsonHeaders;
     payload := VObj [
       ("jsonrpc", VStr "2.0");
       ("method", VStr "aztec_getBlockNumber");
       ("params", VArr []);
       ("id", VNum 1)] |}.

Definition getBlockNumber (this : AztecRPCClient) : M Value :=
  tryCatch
    (response <- fetch (blockNumberRequest this) ;;
     result <- responseJson response ;;
     number <- lift (getProp result "result") ;;
     ret (or_else number (VNum 0)))
    (fun error =>
       consoleError "Failed to get block number:" ;;
       ret (VNum 0)).

(** The object literal [sendTransaction] returns. *)
Record TransactionReceipt : Type := {
  transactionHash : string;
  status : string;
  blockNumber : float;
  gasUsed : string
}.

(** [`${from}`] of an optional string argument *)
Definition optionalString (s : option string) : string :=
  match s with
  | Some text => text
  | None => "undefined"
  end.

Definition sendTransaction (this : AztecRPCClient)
    (contractAddress functionName : string) (params : list Value)
    (from : option string) : M TransactionReceipt :=
  tryCatch
    (consoleLog ("Sending transaction " ++ functionName ++ " to " ++ contractAddress
                 ++ " from " ++ optionalString from ++ " with params:") ;;
     (* Simulate transaction success with transaction hash *)
     r1 <- Math_random ;;
     r2 <- Math_random ;;
     E <- (fun w => (Normal (engine w), w)) ;;
     ret {| transactionHash := "0x" ++ substring 2 66 (numberToStringRadix16 E r1);
            status := "success";
            blockNumber := Math_floor (r2 * 1000000)%float;
            gasUsed := "21000" |})
    (fun error =>
       consoleError "Transaction failed:" ;;
       throw error).

(** One turn of the loop of [hashString]:
    [hash = ((hash << 5) - hash) + char; hash = hash & hash]. *)
Definition hashStep (hash char : Z) : Z :=
  let hash := (shl32 hash 5 - hash) + char in
  and32 hash hash.

(** [private hashString(input)]: a loop over the code units, then
    ['0x' + Math.abs(hash).toString(16).padStart(64, '0')].  The body reads
    neither [this] nor the host. *)
Definition hashString (this : AztecRPCClient) (input : string) : M string :=
  let hash := List.fold_left hashStep (charCodes input) 0 in
  ret ("0x" ++ padStart 64 "0" (integerToString16 (Z.abs hash))).

(** *** class AztecContractClient *)

Record AztecContractClient : Type := {
  rpc : AztecRPCClient;
  profileRegistryAddress : string;
  privateSocialAddress : string
}.

Definition newAztecContractClient (url registry social : string) : AztecContractClient :=
  {| rpc := newAztecRPCClient url;
     profileRegistryAddress := registry;
     privateSocialAddress := social |}.

Definition hasProfile (this : AztecContractClient) (user : string) : M bool :=
  tryCatch
    (result <- simulateTransaction (rpc this) (profileRegistryAddress this)
                 "has_profile" [VStr user] ;;
     ret (truthy result))
    (fun error =>
       consoleError "Failed to check profile:" ;;
       ret false).

Definition getProfileId (this : AztecContractClient) (user : string) : M Value :=
  tryCatch
    (result <- simulateTransaction (rpc this) (profileRegistryAddress this)
                 "get_profile_id" [VStr user] ;;
     text <- (fun w => (toStringOpt (engine w) result, w)) ;;
     ret (or_else text (VStr "0")))
    (fun error =>
       consoleError "Failed to get profile ID:" ;;
       ret (VStr "0")).

Definition getTotalProfiles (this : AztecContractClient) : M Value :=
  tryCatch
    (result <- simulateTransaction (rpc this) (profileRegistryAddress this)
                 "get_total_profiles" [] ;;
     count <- (fun w => (parseInt (engine w) result, w)) ;;
     ret (or_else (VNum count) (VNum 0)))
    (fun error =>
       consoleError "Failed to get total profiles:" ;;
       ret (VNum 0)).

Definition sixFalse : Value :=
  VArr [VBool false; VBool false; VBool false; VBool false; VBool false; VBool false].

Definition getProfileVerifications (this : AztecContractClient) (profileId : string) : M Value :=
  tryCatch
    (result <- simulateTransaction (rpc this) (privateSocialAddress this)
                 "get_profile_verifications" [VStr profileId] ;;
     ret (if isArray result then result else sixFalse))
    (fun error =>
       consoleError "Failed to get profile verifications:" ;;
       ret sixFalse).

Definition isTwitterVerified (this : AztecContractClient) (profileId : string) : M bool :=
  tryCatch
    (result <- simulateTransaction (rpc this) (privateSocialAddress this)
                 "is_twitter_verified" [VStr profileId] ;;
     ret (truthy result))
    (fun error =>
       consoleError "Failed to check Twitter verification:" ;;
       ret false).

(** [export const aztecContracts = new AztecContractClient(...)] *)
Definition aztecContracts : AztecContractClient :=
  newAztecContractClient
    "https://aztec-alpha-testnet-fullnode.zkv.xyz"
    "0x2ec8bbff14a6b5347b3db46dcd1544abf99e9546839a740b9e37b648bc5e176f"
    "0x227e0e81083bfed7a1e0458b89645f49b510a5fe59f8766581cbc3277f91b264".

(** *** The private helpers of AztecRPCClient *)

Definition getDefaultValue (this : AztecRPCClient) (functionName : string) : Value :=
  if String.eqb functionName "has_profile" then VBool false
  else if String.eqb functionName "get_profile_id" then VStr "0"
  else if String.eqb functionName "get_total_profiles" then VNum 0
  else if String.eqb functionName "get_profile_verifications" then sixFalse
  else if String.eqb functionName "is_username_available" then VBool true
  else VNull.

Definition parseAztecResult (E : Engine) (this : AztecRPCClient)
    (functionName : string) (result : Value) : Completion Value :=
  if negb (truthy result) then Normal (getDefaultValue this functionName)
  else if String.eqb functionName "has_profile" then Normal (VBool (truthy result))
  else if String.eqb functionName "get_profile_id" then toStringOpt E result
  else if String.eqb functionName "get_total_profiles" then
    match parseInt E result with
    | Normal count => Normal (or_else (VNum count) (VNum 0))
    | Abrupt e => Abrupt e
    end
  else if String.eqb functionName "get_profile_verifications" then
    Normal (if isArray result then result else sixFalse)
  else if String.eqb functionName "is_username_available" then Normal (VBool (truthy result))
  else Normal result.

Definition zeroWord : string :=
  "0000000000000000000000000000000000000000000000000000000000000000".

Section Radix16.
(** [parseInt(text, 16)], taken from the engine in use. *)
Variable parseIntRadix16 : string -> float.

(** Decode the hex result based on function type. *)
Definition decodeResult (E : Engine) (this : AztecRPCClient)
    (functionName result : string) : Value :=
  if String.eqb functionName "has_profile" then
    VBool (negb (String.eqb result ("0x" ++ zeroWord)))
  else if String.eqb functionName "get_profile_id"
          || String.eqb functionName "get_total_profiles" then
    VStr (numberToString E (parseIntRadix16 result))
  else if String.eqb functionName "get_profile_verifications" then
    (* Parse array of booleans from hex result *)
    let hexValue := replace "0x" "" result in
    VArr (List.map
            (fun i =>
               let byteIndex := (i * 64)%nat in
               let byte := slice byteIndex (byteIndex + 64) hexValue in
               VBool (negb (String.eqb byte zeroWord)))
            (List.seq 0 6))
  else VStr result.
End Radix16.

(** One element of [params.map(...)] in [encodeFunctionCall]. *)
Definition encodeParam (this : AztecRPCClient) (param : Value) : M string :=
  match param with
  | VStr text =>
      if startsWith "0x" text then
        ret (padStart 64 "0" (sliceFrom 2 text))
      else
        hashed <- hashString this text ;;
        ret (sliceFrom 2 hashed)
  | _ =>
      text <- (fun w => (toStringRadix16 (engine w) param, w)) ;;
      ret (padStart 64 "0" text)
  end.

Fixpoint encodeParams (this : AztecRPCClient) (params : list Value) : M (list string) :=
  match params with
  | [] => ret []
  | param :: rest =>
      encoded <- encodeParam this param ;;
      others <- encodeParams this rest ;;
      ret (encoded :: others)
  end.

(** Simple function encoding for Aztec contracts *)
Definition encodeFunctionCall (this : AztecRPCClient)
    (functionName : string) (params : list Value) : M string :=
  hashed <- hashString this functionName ;;
  let functionHash := slice 0 10 hashed in
  parts <- encodeParams this params ;;
  let encodedParams := joinWith "" parts in
  ret (functionHash ++ encodedParams).

(** *** More of AztecContractClient *)

Section Comparison.
(** ToNumber of a string, taken from the engine in use. *)
Variable stringToNumber : string -> float.

(** [v > 0] *)
Definition greaterThanZero (E : Engine) (v : Value) : Completion bool :=
  match v with
  | VUndefined => Normal false
  | VNull => Normal false
  | VBool b => Normal b
  | VNum x => Normal (PrimFloat.ltb 0%float x)
  | VStr text => Normal (PrimFloat.ltb 0%float (stringToNumber text))
  | VArr _ | VObj _ =>
      match ToString E v with
      | Normal text => Normal (PrimFloat.ltb 0%float (stringToNumber text))
      | Abrupt e => Abrupt e
      end
  end.

(** Test connection to Aztec network *)
Definition testConnection (this : AztecContractClient) : M bool :=
  tryCatch
    (blockNumber <- getBlockNumber (rpc this) ;;
     consoleLog "Connected to Aztec network, block number:" ;;
     (fun w => (greaterThanZero (engine w) blockNumber, w)))
    (fun error =>
       consoleError "Failed to connect to Aztec network:" ;;
       ret false).
End Comparison.

(** The object literal [createProfile] returns. *)
Record ProfileReceipt : Type := {
  receiptHash : string;
  profileId : float;
  success : bool
}.

Definition createProfile (this : AztecContractClient)
    (usernameHash tokenUriHash from : string) : M ProfileReceipt :=
  tryCatch
    (result <- simulateTransaction (rpc this) (profileRegistryAddress this)
                 "create_profile" [VStr usernameHash; VStr tokenUriHash] ;;
     r1 <- Math_random ;;
     r2 <- Math_random ;;
     E <- (fun w => (Normal (engine w), w)) ;;
     ret {| receiptHash := "0x" ++ substring 2 66 (numberToStringRadix16 E r1);
            profileId := (Math_floor (r2 * 1000) + 1)%float;
            success := true |})
    (fun error =>
       consoleError "Profile creation failed:" ;;
       throw error).

(** Utility methods *)
Definition parseBoolean (this : AztecContractClient) (result : Value) : bool :=
  match result with
  | VBool b => b
  | VStr text =>
      String.eqb text "true" || String.eqb text "1" || String.eqb text "0x01"
  | _ => false
  end.

Definition parseField (E : Engine) (this : AztecContractClient) (result : Value) : string :=
  match result with
  | VStr text => text
  | VNum x => numberToString E x
  | _ => "0"
  end.

Fixpoint randomFlags (n : nat) : M (list bool) :=
  match n with
  | O => ret []
  | S n' =>
      r <- Math_random ;;
      flags <- randomFlags n' ;;
      ret (PrimFloat.ltb 0.5%float r :: flags)
  end.

Definition parseVerificationArray (this : AztecContractClient) (result : Value)
    : M (list bool) :=
  match result with
  | VArr items => ret (List.map (parseBoolean this) items)
  | _ =>
      (* Fallback: return 6 random boolean values for testing *)
      randomFlags 6
  end.

Module Client.
(** Hash utility for username hashing: [AztecContractClient.hashString] *)
Definition hashString (this : AztecContractClient) (input : string) : M string :=
  let data := utf8 input in
  hashArray <- subtleDigest data ;;
  ret ("0x" ++ bytesToHex hashArray).
End Client.

End AztecContracts.

(** ** aztec-client.ts: class AztecSponsoredWallet (its held state) *)

Module AztecClient.
Import JS Host.

(** Handles to the keys that [crypto.subtle.generateKey] made. *)
Record CryptoKeyPair : Type := {
  publicKey : nat;
  privateKey : nat
}.

(** The data fields of the object literal stored in [this.account]. *)
Record Account : Type := {
  address : string;
  keyPair_ : option CryptoKeyPair;
  isSponsored : bool;
  networkRegistered : bool
}.

(** [private account: any = null; private keyPair: CryptoKeyPair | null = null] *)
Record AztecSponsoredWallet : Type := {
  account : option Account;
  keyPair : option CryptoKeyPair
}.

(** [new AztecSponsoredWallet()] *)
Definition aztecSponsoredWallet : AztecSponsoredWallet :=
  {| account := None; keyPair := None |}.

Definition getCurrentAccount (this : AztecSponsoredWallet) : option Account :=
  account this.

Definition disconnect (this : AztecSponsoredWallet) : AztecSponsoredWallet :=
  {| account := None; keyPair := None |}.

End AztecClient.

(** ** The account-abstraction file: class AztecAccountAbstraction *)

Module AccountAbstraction.
Import JS Host.
Local Open Scope js_scope.

Definition pxeUrl : string := "https://aztec-alpha-testnet-fullnode.zkv.xyz".
Definition sponsorAddress : string :=
  "0x1260a43ecf03e985727affbbe3e483e60b836ea821b6305bea1c53398b986047".

(** The object literal stored in [this.account]. *)
Record Account : Type := {
  address : Value;
  type : string;
  isGasless : bool;
  sponsor : string;
  transactionHash : Value
}.

(** [interface AAAccountResult]; an absent optional field is [None]. *)
Record AAAccountResult : Type := {
  success : bool;
  address_ : option Value;
  account_ : option Account;
  provider : option string;
  error : option string
}.

(** [private account: any = null; private pxe: any = null] *)
Record AztecAccountAbstraction : Type := {
  account : option Account;
  pxe : option Value
}.

(** [new AztecAccountAbstraction()] *)
Definition aztecAccountAbstraction : AztecAccountAbstraction :=
  {| account := None; pxe := None |}.

Definition generateAAAddress (this : AztecAccountAbstraction) : M string :=
  (* Generate a valid Aztec address format for AA account *)
  bytes <- getRandomValues 32 ;;
  ret ("0x" ++ bytesToHex bytes).

Definition hashString (this : AztecAccountAbstraction) (input : string) : M string :=
  let data := utf8 input in
  hashArray <- subtleDigest data ;;
  ret ("0x" ++ bytesToHex hashArray).

Definition statusPayload : Value :=
  VObj [("jsonrpc", VStr "2.0");
        ("method", VStr "pxe_getNodeInfo");
        ("params", VArr []);
        ("id", VNum 1)].

Definition createAccountPayload (aaAddress argsHash : string) (id : float) : Value :=
  VObj [("jsonrpc", VStr "2.0");
        ("method", VStr "aztec_sendTransaction");
        ("params", VArr [
           VObj [("origin", VStr aaAddress);
                 ("functionData", VObj [
                    ("contractAddress", VStr aaAddress);
                    ("entrypoint", VStr "0x00000001");
                    ("argsHash", VStr argsHash)]);
                 ("args", VArr [VObj [("type", VStr "Field"); ("value", VStr aaAddress)]]);
                 ("fee", VObj [("assetAddress", VStr sponsorAddress)]);
                 ("txContext", VObj [("nonce", VNum 0); ("expiry", VNum 0)]);
                 ("proof", VStr "0x");
                 ("signature", VStr "0x")]]);
        ("id", VNum id)].

Definition post (target : string) (body : Value) : M Response :=
  fetch {| url := target; method := "POST";
           headers := [("Content-Type", "application/json")];
           payload := body |}.

(** The method assigns [this.account]; the object after the call is
    returned next to the result. *)
Definition createAAAccount (this : AztecAccountAbstraction)
    : M (AAAccountResult * AztecAccountAbstraction) :=
  tryCatch
    (consoleLog "=== Creating Account Abstraction Wallet ===" ;;
     consoleLog "PXE URL:" ;;
     consoleLog "Sponsor Address:" ;;
     (* Test connection to Aztec Alpha Testnet PXE *)
     consoleLog "Testing PXE connection..." ;;
     statusResponse <- post pxeUrl statusPayload ;;
     if negb (ok statusResponse) then
       throw (Error ("PXE connection failed: HTTP " ++ integerToString (status statusResponse)))
     else
     statusResult <- responseJson statusResponse ;;
     consoleLog "PXE Status:" ;;
     (* Create Account Abstraction using authentic Aztec transaction format *)
     consoleLog "Creating AA account with authentic Aztec format..." ;;
     aaAddress <- generateAAAddress this ;;
     argsHash <- hashString this aaAddress ;;
     r <- Math_random ;;
     let createAccountPayload :=
       createAccountPayload aaAddress argsHash (Math_floor (r * 1000)%float) in
     consoleLog "Creating account with sponsored fees..." ;;
     createResponse <- post pxeUrl createAccountPayload ;;
     if negb (ok createResponse) then
       throw (Error ("Account creation failed: HTTP " ++ integerToString (status createResponse)))
     else
     createResult <- responseJson createResponse ;;
     consoleLog "Account creation result:" ;;
     result <- lift (getProp createResult "result") ;;
     served <- lift (getPropOpt result "address") ;;
     address <- (if truthy served then ret served
                 else fresh <- generateAAAddress this ;; ret (VStr fresh)) ;;
     result' <- lift (getProp createResult "result") ;;
     transactionHash <- lift (getPropOpt result' "transactionHash") ;;
     consoleLog "AA Account deployed on-chain" ;;
     consoleLog "Address:" ;;
     (if truthy transactionHash then
        consoleLog "Transaction Hash:" ;;
        link <- templateString transactionHash ;;
        consoleLog "Explorer:"
      else ret tt) ;;
     let account := {| address := address;
                       type := "account_abstraction";
                       isGasless := true;
                       sponsor := sponsorAddress;
                       transactionHash := transactionHash |} in
     ret ({| success := true;
             address_ := Some address;
             account_ := Some account;
             provider := Some "account_abstraction";
             error := None |},
          {| account := Some account; pxe := pxe this |}))
    (fun err =>
       consoleError "AA Account creation failed:" ;;
       ret ({| success := false;
               address_ := None;
               account_ := None;
               provider := None;
               error := Some (messageOr "Unknown error occurred" err) |},
            this)).

Definition getCurrentAccount (this : AztecAccountAbstraction) : option Account :=
  account this.

Definition disconnect (this : AztecAccountAbstraction) : AztecAccountAbstraction :=
  {| account := None; pxe := None |}.

End AccountAbstraction.

(** ** azguard-client.ts *)

Module AzguardClientTs.
Import JS Host.
Local Open Scope js_scope.

(** [interface AzGuardConnectionResult] and the wrapper object of
    [createAccountWrapper]; an absent optional field is [None]. *)
Record AccountWrapper : Type := {
  address : Value;
  fullAccount : Value;
  _azguardClient : ClientRef
}.

Record AzGuardConnectionResult : Type := {
  success : bool;
  account : option AccountWrapper;
  address_ : option Value;
  provider : option string;
  error : option string
}.

Definition createAccountWrapper (address fullAccount : Value) (client : ClientRef)
    : AccountWrapper :=
  {| address := address; fullAccount := fullAccount; _azguardClient := client |}.

(** [getAddress: () => ({ toString: () => address })] *)
Definition getAddress (wrapper : AccountWrapper) : Value := address wrapper.

(** [signMessage: async (msg) => ...]: hash-based signature *)
Definition signMessage (wrapper : AccountWrapper) (msg : string) : M string :=
  let data := utf8 msg in
  hashArray <- subtleDigest data ;;
  let hashHex := bytesToHex hashArray in
  ret ("0x" ++ hashHex).

(** [await AzguardClient.isAzguardInstalled()] *)
Definition isAzguardInstalled : M Value :=
  fun w => (extInstalled w, w).

(** [await AzguardClient.create()]; [None] is a falsy result. *)
Definition AzguardClient_create : M (option ClientRef) :=
  fun w => (extCreate w, w).

(** [azguard.connected] and [azguard.accounts] *)
Definition readConnected (azguard : ClientRef) : M Value :=
  fun w => (Normal (connected (clients w azguard)), w).

Definition readAccounts (azguard : ClientRef) : M Value :=
  fun w => (Normal (accounts (clients w azguard)), w).

(** [await azguard.connect(metadata, permissions)]: the extension updates
    the client object or rejects. *)
Definition connect (azguard : ClientRef) (metadata permissions : Value) : M unit :=
  fun w =>
    match extConnect w azguard metadata permissions with
    | Normal state =>
        (Normal tt,
         withClients (fun r => if Nat.eqb r azguard then state else clients w r) w)
    | Abrupt e => (Abrupt e, w)
    end.

Definition readOrigin : M string :=
  fun w => (Normal (origin w), w).

Definition setAzguardInstance (v : option ClientRef) : M unit :=
  fun w => (Normal tt, withAzguardInstance v w).

Definition installUrl : string :=
  "https://chrome.google.com/webstore/detail/azguard-wallet/pliilpflcmabdiapdeihifihkbdfnbmn".

(** [parts[parts.length - 1]] *)
Definition lastPart (parts : list string) : Value :=
  match nth_error parts (List.length parts - 1) with
  | Some part => VStr part
  | None => VUndefined
  end.

(** Parse the address from the full account string: the [if]/[else] that
    assigns [address] in [connectAzGuard]. *)
Definition parseAddress (fullAccount : Value) : M Value :=
  match fullAccount with
  | VStr text =>
      if includes ":" text then
        let parts := split ":" text in
        let address := lastPart parts in (* Get the last part (the actual address) *)
        consoleLog "Parsed address:" ;;
        ret address
      else
        (* If it's already just an address *)
        ret fullAccount
  | _ => ret fullAccount
  end.

(** The [try] block of [connectAzGuard]. *)
Definition connectAzGuard_try : M AzGuardConnectionResult :=
    (consoleLog "Checking if AzGuard is installed..." ;;
     isInstalled <- isAzguardInstalled ;;
     if negb (truthy isInstalled) then
       window_open installUrl "_blank" ;;
       ret {| success := false;
              account := None; address_ := None; provider := None;
              error := Some "AzGuard wallet not installed" |}
     else
     consoleLog "Creating AzGuard client..." ;;
     created <- AzguardClient_create ;;
     match created with
     | None => throw (Error "Failed to initialize AzGuard client")
     | Some azguard =>
         isConnected <- readConnected azguard ;;
         consoleLog "AzGuard connected status:" ;;
         (if negb (truthy isConnected) then
            consoleLog "Connecting to AzGuard..." ;;
            origin <- readOrigin ;;
            connect azguard
              (VObj [("name", VStr "Aztlan Quest");
                     ("iconUrl", VStr (origin ++ "/logo.svg"))])
              (VArr [VObj [("chains", VArr [VStr "aztec:11155111"]);
                           ("methods", VArr [VStr "send_transaction"; VStr "call"])]])
          else ret tt) ;;
         accounts <- readAccounts azguard ;;
         consoleLog "AzGuard accounts:" ;;
         if negb (truthy accounts) || lengthIsZero accounts then
           throw (Error "No account returned from AzGuard")
         else
         (* Get the first account - format: "aztec:chainId:address" *)
         let fullAccount := first accounts in
         address <- parseAddress fullAccount ;;
         let accountWrapper := createAccountWrapper address fullAccount azguard in
         setAzguardInstance (Some azguard) ;;
         ret {| success := true;
                account := Some accountWrapper;
                address_ := Some address;
                provider := Some "azguard";
                error := None |}
     end).

(** The [catch (err)] block of [connectAzGuard]. *)
Definition connectAzGuard_catch (err : Thrown) : M AzGuardConnectionResult :=
  consoleError "AzGuard connection error:" ;;
  setAzguardInstance None ;;
  ret {| success := false;
         account := None; address_ := None; provider := None;
         error := Some (messageOr "Failed to connect to AzGuard" err) |}.

Definition connectAzGuard : M AzGuardConnectionResult :=
  tryCatch connectAzGuard_try connectAzGuard_catch.

(** Check if AzGuard is available *)
Definition isAzGuardAvailable : M Value :=
  tryCatch
    isAzguardInstalled
    (fun error =>
       consoleError "Error checking AzGuard availability:" ;;
       ret (VBool false)).

(** Export for debugging *)
Definition getAzGuardInstance : M (option ClientRef) :=
  fun w => (Normal (azguardInstance w), w).

End AzguardClientTs.

(** ** Example pages, used to run the model *)

Module Scenario.
Import JS Host.

Definition engine0 : Engine :=
  {| numberToString := fun _ => "0";
     numberToStringRadix16 := fun _ => "0.8f3a";
     parseIntOfString := fun _ => 0%float |}.

(** A page with the given network, extension and singleton; every client
    object reports one connected account. *)
Definition page (net : list Request -> Completion Response)
    (installed : Completion Value) (create : Completion (option ClientRef))
    (instance : option ClientRef) : World :=
  {| engine := engine0;
     console := [];
     randomSource := fun _ => 0.5%float; randomTaken := 0;
     entropy := fun n => match Byte.of_N (N.of_nat n mod 256) with
                         | Some b => b
                         | None => x00
                         end;
     entropyTaken := 0;
     network := net; requests := [];
     sha256 := fun data => Normal data;
     windowOpen := fun _ _ => Normal tt; opened := [];
     origin := "https://app.example";
     extInstalled := installed;
     extCreate := create;
     extConnect := fun _ _ _ => Abrupt (Error "User rejected the request");
     clients := fun _ => {| connected := VBool true;
                            accounts := VArr [VStr "aztec:11155111:0xABC"] |};
     azguardInstance := instance |}.

Definition offline : list Request -> Completion Response :=
  fun _ => Abrupt (TypeError "Failed to fetch").

Definition okResponse (body : Value) : Response :=
  {| ok := true; status := 200; statusText := "OK"; json := Normal body |}.

Definition replies (body : Value) : list Request -> Completion Response :=
  fun _ => Normal (okResponse body).

(** No extension in the browser. *)
Definition noExtension : World :=
  page offline (Normal (VBool false)) (Abrupt (Error "no extension")) None.

(** A page that holds client 7 from an earlier connection, with an
    extension whose [create()] now rejects. *)
Definition staleClient : World :=
  page offline (Normal (VBool true)) (Abrupt (Error "extension unavailable")) (Some 7%nat).

(** A node that answers every request with [{error: {message: "x"}}]. *)
Definition errorBody : Value := VObj [("error", VObj [("message", VStr "x")])].
Definition failingNode : World :=
  page (replies errorBody) (Normal (VBool false)) (Abrupt (Error "no extension")) None.

(** A node that answers every request with [{result: 41}]. *)
Definition resultBody : Value := VObj [("result", VNum 41)].
Definition answeringNode : World :=
  page (replies resultBody) (Normal (VBool false)) (Abrupt (Error "no extension")) None.

(** An installed extension that hands out client 0, already connected. *)
Definition walletReady : World :=
  page offline (Normal (VBool true)) (Normal (Some 0%nat)) None.

(** A node that accepts the account deployment but names no address. *)
Definition deployedBody : Value := VObj [("result", VObj [("transactionHash", VStr "0x1f")])].
Definition deployingNode : World :=
  page (replies deployedBody) (Normal (VBool false)) (Abrupt (Error "no extension")) None.

Definition client : AztecContracts.AztecRPCClient :=
  AztecContracts.newAztecRPCClient "https://aztec-alpha-testnet-fullnode.zkv.xyz".

(** A node that answers every request with [{error: null, result: 41}]. *)
Definition settledBody : Value := VObj [("error", VNull); ("result", VNum 41)].
Definition settledNode : World :=
  page (replies settledBody) (Normal (VBool false)) (Abrupt (Error "no extension")) None.

(** The deploying node, seen from a page whose [crypto.getRandomValues]
    fills every array with the byte [0x2a]. *)
Definition repeatingSource : World :=
  let w := deployingNode in
  {| engine := engine w;
     console := console w;
     randomSource := randomSource w; randomTaken := randomTaken w;
     entropy := fun _ => x2a;
     entropyTaken := entropyTaken w;
     network := network w; requests := requests w;
     sha256 := sha256 w;
     windowOpen := windowOpen w; opened := opened w;
     origin := origin w;
     extInstalled := extInstalled w;
     extCreate := extCreate w;
     extConnect := extConnect w;
     clients := clients w;
     azguardInstance := azguardInstance w |}.

(** A node that answers every request with [{result: "false"}]. *)
Definition stringBody : Value := VObj [("result", VStr "false")].
Definition stringNode : World :=
  page (replies stringBody) (Normal (VBool false)) (Abrupt (Error "no extension")) None.

(** A node that answers every request with [{result: [true, "yes"]}]. *)
Definition shortArrayBody : Value := VObj [("result", VArr [VBool true; VStr "yes"])].
Definition shortArrayNode : World :=
  page (replies shortArrayBody) (Normal (VBool false)) (Abrupt (Error "no extension")) None.

(** The 64-digit word of the number one. *)
Definition oneWord : string :=
  "0000000000000000000000000000000000000000000000000000000000000001".

(** A node that answers every request with HTTP 503. *)
Definition unavailable : list Request -> Completion Response :=
  fun _ => Normal {| ok := false; status := 503; statusText := "Service Unavailable";
                     json := Abrupt (ErrorObject "SyntaxError" "Unexpected end of JSON input") |}.
Definition unavailableNode : World :=
  page unavailable (Normal (VBool false)) (Abrupt (Error "no extension")) None.

(** An installed extension whose client 0 is not connected yet and whose
    user turns the connection request down. *)
Definition lockedWallet : World :=
  withClients (fun _ => {| connected := VBool false; accounts := VArr [] |}) walletReady.

(** A node that accepts the account deployment and names a transaction
    hash that cannot be printed: [{result: {transactionHash: {toString: 1}}}]. *)
Definition opaqueHashBody : Value :=
  VObj [("result", VObj [("transactionHash", VObj [("toString", VNum 1)])])].
Definition opaqueHashNode : World :=
  page (replies opaqueHashBody) (Normal (VBool false)) (Abrupt (Error "no extension")) None.

End Scenario.

(** ** What a run of [createAAAccount] exposes *)

Module Observed.
Import JS Host.

(** The 32 bytes that the first and the second call of
    [crypto.getRandomValues] take from the stream, counted from the state
    of the page at the start of the run. *)
Definition draw (w : World) : list byte :=
  List.map (entropy w) (List.seq (entropyTaken w) 32).

Definition firstDraw (w : World) : list byte := draw w.

Definition secondDraw (w : World) : list byte :=
  List.map (entropy w) (List.seq (entropyTaken w + 32) 32).

(** [createResult.result?.address] of a parsed response body *)
Definition servedAddress (createResult : Value) : Completion Value :=
  match getProp createResult "result" with
  | Normal result => getPropOpt result "address"
  | Abrupt e => Abrupt e
  end.

(** [params[0].origin] of the body of a request *)
Definition deployedOrigin (request : Request) : Completion Value :=
  match getProp (payload request) "params" with
  | Normal params => getProp (first params) "origin"
  | Abrupt e => Abrupt e
  end.

(** The polynomial [c0 * 31^(n-1) + ... + c(n-1)] of a list of code units
    (Horner's scheme). *)
Definition poly31 (codes : list Z) : Z :=
  List.fold_left (fun hash char => 31 * hash + char) codes 0.

(** [n] copies of ['0'] *)
Definition zeros (n : nat) : string := repeatString "0" n.

(** What [decodeResult] makes of one 64-digit word of a flags payload. *)
Definition wordFlag (word : string) : Value :=
  VBool (negb (String.eqb word AztecContracts.zeroWord)).

(** The two requests of [createAAAccount]: the node probe, and the
    deployment carrying the first random address, the hash of it and a
    random id. *)
Definition statusRequest : Request :=
  {| url := AccountAbstraction.pxeUrl; method := "POST";
     headers := [("Content-Type", "application/json")];
     payload := AccountAbstraction.statusPayload |}.

Definition deployRequest (w : World) (digest : list byte) : Request :=
  {| url := AccountAbstraction.pxeUrl; method := "POST";
     headers := [("Content-Type", "application/json")];
     payload :=
       AccountAbstraction.createAccountPayload
         ("0x" ++ bytesToHex (firstDraw w))
         ("0x" ++ bytesToHex digest)
         (Math_floor (randomSource w (randomTaken w) * 1000)%float) |}.

(** The arguments [connectAzGuard] passes to [azguard.connect]. *)
Definition dappMetadata (w : World) : Value :=
  VObj [("name", VStr "Aztlan Quest");
        ("iconUrl", VStr (origin w ++ "/logo.svg"))].

Definition permissions : Value :=
  VArr [VObj [("chains", VArr [VStr "aztec:11155111"]);
              ("methods", VArr [VStr "send_transaction"; VStr "call"])]].

(** The state of a client once [connectAzGuard] is past its connection
    step: as found when the client was connected already, as the extension
    left it otherwise. *)
Definition session (w : World) (azguard : ClientRef) : Completion ClientState :=
  if truthy (connected (clients w azguard)) then Normal (clients w azguard)
  else extConnect w azguard (dappMetadata w) permissions.

(** The address [connectAzGuard] reads out of an account entry. *)
Definition parsed (fullAccount : Value) : Value :=
  match fullAccount with
  | VStr text =>
      if includes ":" text then AzguardClientTs.lastPart (split ":" text)
      else fullAccount
  | _ => fullAccount
  end.

(** The result of a failed [connectAzGuard]. *)
Definition connectionFailure (message : string) : AzguardClientTs.AzGuardConnectionResult :=
  {| AzguardClientTs.success := false;
     AzguardClientTs.account := None;
     AzguardClientTs.address_ := None;
     AzguardClientTs.provider := None;
     AzguardClientTs.error := Some message |}.

End Observed.

(** ** Properties *)

Import JS Host.

(** *** Running computations *)

Lemma outcome_ret {A} (a : A) (w : World) : outcome (ret a w) = Normal a.
Proof. reflexivity. Qed.

Lemma tryCatch_abrupt {A} (body : M A) (handler : Thrown -> M A) w e w' :
  body w = (Abrupt e, w') -> tryCatch body handler w = handler e w'.
Proof. intros H. unfold tryCatch. rewrite H. reflexivity. Qed.

(** A handler that logs and returns a default turns every exception of the
    body into that default. *)
Lemma default_on_exception {A} (body : M A) (text : string) (default : A) w e :
  outcome (body w) = Abrupt e ->
  outcome (tryCatch body (fun _ => bind (consoleError text) (fun _ => ret default)) w)
  = Normal default.
Proof.
  unfold outcome, tryCatch. destruct (body w) as [[a | e'] w']; simpl.
  - discriminate.
  - reflexivity.
Qed.

(** *** The rolling hash *)

(** ["ab"]: [97 * 31 + 98 = 3105 = 0xc21]. *)
Example hashString_ab :
  outcome (AztecContracts.hashString Scenario.client "ab" Scenario.noExtension)
  = Normal "0x0000000000000000000000000000000000000000000000000000000000000c21".
Proof. reflexivity. Qed.

(** C5.  [AztecRPCClient.hashString] is a deterministic pure function: the
    string it returns is the same for the same input whatever the receiver
    and whatever the state of the host at the time of the call; it always
    returns, and it leaves the host untouched. *)
Theorem hashString_deterministic :
  forall (this this' : AztecContracts.AztecRPCClient) (w w' : World) (input : string),
    outcome (AztecContracts.hashString this input w)
    = outcome (AztecContracts.hashString this' input w')
    /\ (exists digest, outcome (AztecContracts.hashString this input w) = Normal digest)
    /\ after (AztecContracts.hashString this input w) = w.
Proof.
  intros this this' w w' input. unfold AztecContracts.hashString.
  split; [reflexivity | split].
  - eexists. apply outcome_ret.
  - reflexivity.
Qed.

(** *** The mocked transaction *)

(** C8.  [AztecRPCClient.sendTransaction] makes no request: for every input
    it returns (never throws) an object with status ['success'] and gasUsed
    ['21000'], whose transactionHash and blockNumber are computed from two
    successive [Math.random()] draws, and the list of requests sent is
    unchanged. *)
Theorem sendTransaction_is_local :
  forall (this : AztecContracts.AztecRPCClient) (contractAddress functionName : string)
         (params : list Value) (from : option string) (w : World),
    let run := AztecContracts.sendTransaction this contractAddress functionName params from w in
    exists receipt,
      outcome run = Normal receipt
      /\ AztecContracts.status receipt = "success"
      /\ AztecContracts.gasUsed receipt = "21000"
      /\ AztecContracts.transactionHash receipt
         = "0x" ++ substring 2 66
                     (numberToStringRadix16 (engine w) (randomSource w (randomTaken w)))
      /\ AztecContracts.blockNumber receipt
         = Math_floor (randomSource w (S (randomTaken w)) * 1000000)%float
      /\ requests (after run) = requests w
      /\ randomTaken (after run) = S (S (randomTaken w)).
Proof.
  intros this contractAddress functionName params from w run.
  eexists. subst run. cbv [AztecContracts.sendTransaction tryCatch bind consoleLog Math_random ret outcome after].
  simpl. repeat split.
Qed.

(** *** Disconnecting *)

(** C10.  For both wallet classes, [disconnect()] sets every held field to
    [null] ([account] and [keyPair], respectively [account] and [pxe]), so
    [getCurrentAccount()] returns [null] right after it, whatever the object
    held before. *)
Theorem disconnect_clears_account :
  (forall this : AztecClient.AztecSponsoredWallet,
      AztecClient.account (AztecClient.disconnect this) = None
      /\ AztecClient.keyPair (AztecClient.disconnect this) = None
      /\ AztecClient.getCurrentAccount (AztecClient.disconnect this) = None)
  /\ (forall this : AccountAbstraction.AztecAccountAbstraction,
      AccountAbstraction.account (AccountAbstraction.disconnect this) = None
      /\ AccountAbstraction.pxe (AccountAbstraction.disconnect this) = None
      /\ AccountAbstraction.getCurrentAccount (AccountAbstraction.disconnect this) = None).
Proof.
  split; intros this; repeat split.
Qed.

(** *** Connecting the wallet *)

(** [connectAzGuard] never throws: every path ends in a [return]. *)
Lemma connectAzGuard_returns (w : World) :
  exists result, outcome (AzguardClientTs.connectAzGuard w) = Normal result.
Proof.
  unfold AzguardClientTs.connectAzGuard, tryCatch, outcome.
  destruct (AzguardClientTs.connectAzGuard_try w) as [[result | e] w'].
  - exists result. reflexivity.
  - eexists. reflexivity.
Qed.

(** C2.  When the wallet extension is not installed ([isAzguardInstalled()]
    resolves to [false], or to any falsy value), [connectAzGuard()] returns a
    result with [success: false] and an error string; it does not throw, also
    when [window.open] does. *)
Theorem connectAzGuard_not_installed :
  forall (w : World) (isInstalled : Value),
    extInstalled w = Normal isInstalled ->
    truthy isInstalled = false ->
    exists result message,
      outcome (AzguardClientTs.connectAzGuard w) = Normal result
      /\ AzguardClientTs.success result = false
      /\ AzguardClientTs.error result = Some message.
Proof.
  intros w isInstalled Hinstalled Hfalsy.
  unfold AzguardClientTs.connectAzGuard, AzguardClientTs.connectAzGuard_try,
    AzguardClientTs.connectAzGuard_catch, AzguardClientTs.isAzguardInstalled,
    tryCatch, bind, consoleLog, consoleError, window_open, outcome.
  simpl. rewrite Hinstalled, Hfalsy. simpl.
  destruct (windowOpen w _ _) as [[] | e]; simpl;
    do 2 eexists; repeat split.
Qed.

Lemma connectAzGuard_not_installed_witness :
  exists result message,
    outcome (AzguardClientTs.connectAzGuard Scenario.noExtension) = Normal result
    /\ AzguardClientTs.success result = false
    /\ AzguardClientTs.error result = Some message.
Proof.
  apply (connectAzGuard_not_installed Scenario.noExtension (VBool false)); reflexivity.
Defined.

(** C9.  When [connectAzGuard] fails through its [catch] block (its [try]
    block threw), it returns [success: false] and leaves [azguardInstance]
    [null], so [getAzGuardInstance()] then returns [null], whatever client
    the variable held before the call. *)
Theorem failed_connect_clears_instance :
  forall (w w' : World) (err : Thrown),
    AzguardClientTs.connectAzGuard_try w = (Abrupt err, w') ->
    let run := AzguardClientTs.connectAzGuard w in
    (exists result,
        outcome run = Normal result /\ AzguardClientTs.success result = false)
    /\ azguardInstance (after run) = None
    /\ outcome (AzguardClientTs.getAzGuardInstance (after run)) = Normal None.
Proof.
  intros w w' err Htry run. subst run.
  unfold AzguardClientTs.connectAzGuard.
  rewrite (tryCatch_abrupt _ _ _ _ _ Htry).
  split; [eexists; split; reflexivity | split; reflexivity].
Qed.

Lemma failed_connect_clears_instance_witness :
  azguardInstance Scenario.staleClient = Some 7%nat
  /\ azguardInstance (after (AzguardClientTs.connectAzGuard Scenario.staleClient)) = None.
Proof.
  split; [reflexivity |].
  eapply (failed_connect_clears_instance Scenario.staleClient _ (Error "extension unavailable")).
  reflexivity.
Defined.

(** The early return for a missing extension is not a [catch]: it leaves
    [azguardInstance] as it was. *)
Lemma not_installed_keeps_instance :
  forall (w : World) (isInstalled : Value),
    extInstalled w = Normal isInstalled ->
    truthy isInstalled = false ->
    windowOpen w AzguardClientTs.installUrl "_blank" = Normal tt ->
    azguardInstance (after (AzguardClientTs.connectAzGuard w)) = azguardInstance w.
Proof.
  intros w isInstalled Hinstalled Hfalsy Hopen.
  unfold AzguardClientTs.connectAzGuard, AzguardClientTs.connectAzGuard_try,
    AzguardClientTs.isAzguardInstalled,
    tryCatch, bind, consoleLog, window_open, after.
  simpl. rewrite Hinstalled, Hfalsy. simpl. rewrite Hopen. reflexivity.
Qed.

(** *** The RPC client *)

Lemma prefix_refl (s : string) : String.prefix s s = true.
Proof.
  induction s as [| c s IH]; simpl; [reflexivity |].
  destruct (ascii_dec c c) as [_ | Hneq]; [exact IH | contradiction].
Qed.

Lemma includes_self (s : string) : includes s s = true.
Proof.
  destruct s as [| c s]; [reflexivity |].
  cbn [includes]. rewrite prefix_refl. reflexivity.
Qed.

(** [(front + s).includes(s)] *)
Lemma includes_append (front s : string) : includes s (front ++ s) = true.
Proof.
  induction front as [| c front IH]; simpl.
  - apply includes_self.
  - rewrite IH. apply orb_true_r.
Qed.

(** What [simulateTransaction] does once the response body is parsed. *)
Lemma simulateTransaction_parsed this contractAddress functionName params w response body :
  network w (AztecContracts.simulateRequest this contractAddress functionName params
               :: requests w) = Normal response ->
  json response = Normal body ->
  outcome (AztecContracts.simulateTransaction this contractAddress functionName params w)
  = match getProp body "error" with
    | Abrupt e => Abrupt e
    | Normal error =>
        if truthy error then
          match getProp error "message" with
          | Abrupt e => Abrupt e
          | Normal message =>
              match ToString (engine w) message with
              | Abrupt e => Abrupt e
              | Normal text => Abrupt (Error ("Simulation error: " ++ text))
              end
          end
        else getProp body "result"
    end.
Proof.
  intros Hreply Hjson.
  unfold AztecContracts.simulateTransaction, tryCatch, bind, fetch, responseJson,
    lift, templateString, throw, consoleError, outcome.
  rewrite Hreply. simpl. rewrite Hjson.
  destruct (getProp body "error") as [error | e]; simpl; [| reflexivity].
  destruct (truthy error); simpl.
  - destruct (getProp error "message") as [message | e]; simpl; [| reflexivity].
    destruct (ToString (engine w) message) as [text | e]; reflexivity.
  - destruct (getProp body "result"); reflexivity.
Qed.

(** C1.  When the parsed JSON of the response carries an error object whose
    message is [m], [simulateTransaction] throws an [Error] whose message is
    ["Simulation error: " + m], which contains [m]; it returns no value. *)
Theorem simulateTransaction_rejects_with_message :
  forall (this : AztecContracts.AztecRPCClient) (contractAddress functionName : string)
         (params : list Value) (w : World) (response : Response)
         (body : Value) (errorFields : list (string * Value)) (m : string),
    network w (AztecContracts.simulateRequest this contractAddress functionName params
                 :: requests w) = Normal response ->
    json response = Normal body ->
    getProp body "error" = Normal (VObj errorFields) ->
    lookup "message" errorFields = Some (VStr m) ->
    exists message,
      outcome (AztecContracts.simulateTransaction this contractAddress functionName params w)
      = Abrupt (ErrorObject "Error" message)
      /\ message = "Simulation error: " ++ m
      /\ includes m message = true.
Proof.
  intros this contractAddress functionName params w response body errorFields m
    Hreply Hjson Herror Hmessage.
  exists ("Simulation error: " ++ m).
  split; [| split; [reflexivity | apply includes_append]].
  rewrite (simulateTransaction_parsed _ _ _ _ _ _ _ Hreply Hjson).
  rewrite Herror. simpl. rewrite Hmessage. reflexivity.
Qed.

Lemma simulateTransaction_rejects_with_message_witness :
  exists message,
    outcome (AztecContracts.simulateTransaction Scenario.client "0x2ec8" "has_profile"
               [VStr "0xABC"] Scenario.failingNode)
    = Abrupt (ErrorObject "Error" message)
    /\ message = "Simulation error: x"
    /\ includes "x" message = true.
Proof.
  eapply (simulateTransaction_rejects_with_message Scenario.client "0x2ec8" "has_profile"
            [VStr "0xABC"] Scenario.failingNode _ Scenario.errorBody _ "x");
    reflexivity.
Defined.

(** [getBlockNumber] never throws. *)
Lemma getBlockNumber_returns this w :
  exists number, outcome (AztecContracts.getBlockNumber this w) = Normal number.
Proof.
  unfold AztecContracts.getBlockNumber, tryCatch, outcome.
  match goal with |- context [bind ?m ?k w] => destruct (bind m k w) as [[number | e] w'] end.
  - exists number. reflexivity.
  - eexists. reflexivity.
Qed.

(** What [getBlockNumber] does once the response body is parsed. *)
Lemma getBlockNumber_parsed this w response body :
  network w (AztecContracts.blockNumberRequest this :: requests w) = Normal response ->
  json response = Normal body ->
  outcome (AztecContracts.getBlockNumber this w)
  = match getProp body "result" with
    | Abrupt _ => Normal (VNum 0)
    | Normal number => Normal (or_else number (VNum 0))
    end.
Proof.
  intros Hreply Hjson.
  unfold AztecContracts.getBlockNumber, tryCatch, bind, fetch, responseJson,
    lift, consoleError, outcome.
  rewrite Hreply. simpl. rewrite Hjson.
  destruct (getProp body "result"); reflexivity.
Qed.

(** What the two operations do when no body is parsed: the request is
    rejected, or [response.json()] is. *)
Lemma simulateTransaction_unanswered this contractAddress functionName params w e :
  (network w (AztecContracts.simulateRequest this contractAddress functionName params
                :: requests w) = Abrupt e
   \/ exists response,
        network w (AztecContracts.simulateRequest this contractAddress functionName params
                     :: requests w) = Normal response
        /\ json response = Abrupt e) ->
  outcome (AztecContracts.simulateTransaction this contractAddress functionName params w)
  = Abrupt e.
Proof.
  intros [Hreply | [response [Hreply Hjson]]];
    unfold AztecContracts.simulateTransaction, tryCatch, bind, fetch, responseJson,
      lift, templateString, throw, consoleError, outcome;
    rewrite Hreply; simpl; [| rewrite Hjson]; reflexivity.
Qed.

Lemma getBlockNumber_unanswered this w e :
  (network w (AztecContracts.blockNumberRequest this :: requests w) = Abrupt e
   \/ exists response,
        network w (AztecContracts.blockNumberRequest this :: requests w) = Normal response
        /\ json response = Abrupt e) ->
  outcome (AztecContracts.getBlockNumber this w) = Normal (VNum 0).
Proof.
  intros [Hreply | [response [Hreply Hjson]]];
    unfold AztecContracts.getBlockNumber, tryCatch, bind, fetch, responseJson,
      lift, consoleError, ret, outcome;
    rewrite Hreply; simpl; [| rewrite Hjson]; reflexivity.
Qed.

(** C6, as stated, fails for both operations.  On the body
    [{error: {message: "x"}}], which contains an [error] field,
    [getBlockNumber] returns [0] and does not throw.  On the body
    [{error: null, result: 41}], which contains an [error] field as well,
    [simulateTransaction] returns [41] and does not throw: it tests whether
    [error] is truthy, not whether it is there. *)
Lemma getBlockNumber_ignores_error :
  (exists response,
      network Scenario.failingNode
        (AztecContracts.blockNumberRequest Scenario.client :: requests Scenario.failingNode)
      = Normal response
      /\ json response = Normal Scenario.errorBody
      /\ hasOwn "error" Scenario.errorBody = true
      /\ outcome (AztecContracts.getBlockNumber Scenario.client Scenario.failingNode)
         = Normal (VNum 0))
  /\ (exists response,
         network Scenario.settledNode
           (AztecContracts.simulateRequest Scenario.client "0x2ec8" "get_total_profiles" []
              :: requests Scenario.settledNode)
         = Normal response
         /\ json response = Normal Scenario.settledBody
         /\ hasOwn "error" Scenario.settledBody = true
         /\ outcome (AztecContracts.simulateTransaction Scenario.client "0x2ec8"
                       "get_total_profiles" [] Scenario.settledNode)
            = Normal (VNum 41)).
Proof.
  split.
  - exists (Scenario.okResponse Scenario.errorBody).
    split; [reflexivity |]. split; [reflexivity |]. split; reflexivity.
  - exists (Scenario.okResponse Scenario.settledBody).
    split; [reflexivity |]. split; [reflexivity |]. split; reflexivity.
Qed.

(** C6, amended.  [simulateTransaction] throws when the [.error] of the
    parsed response body is truthy, and returns the body's [.result] when it
    is falsy, be it absent, [null] or [false]; it also throws when the body
    is [null] (reading [.error] throws), when the request is rejected and
    when the response does not parse.  [getBlockNumber] never throws and
    does not look at [.error]: on a parsed body it returns [.result || 0],
    and it returns [0] when the body is [null], when the request is
    rejected and when the response does not parse. *)
Theorem rpc_result_or_error :
  forall (this : AztecContracts.AztecRPCClient) (contractAddress functionName : string)
         (params : list Value) (w : World),
    let asked :=
      network w (AztecContracts.simulateRequest this contractAddress functionName params
                   :: requests w) in
    let simulated :=
      outcome (AztecContracts.simulateTransaction this contractAddress functionName params w) in
    let polled := network w (AztecContracts.blockNumberRequest this :: requests w) in
    let number := outcome (AztecContracts.getBlockNumber this w) in
    (forall response body,
        asked = Normal response ->
        json response = Normal body ->
        (forall e, getProp body "error" = Abrupt e -> simulated = Abrupt e)
        /\ (forall error,
              getProp body "error" = Normal error -> truthy error = true ->
              exists e, simulated = Abrupt e)
        /\ (forall error result,
              getProp body "error" = Normal error -> truthy error = false ->
              getProp body "result" = Normal result ->
              simulated = Normal result))
    /\ (forall e, asked = Abrupt e -> simulated = Abrupt e)
    /\ (forall response e,
          asked = Normal response -> json response = Abrupt e -> simulated = Abrupt e)
    /\ (forall response body,
          polled = Normal response ->
          json response = Normal body ->
          (forall e, getProp body "result" = Abrupt e -> number = Normal (VNum 0))
          /\ (forall result,
                getProp body "result" = Normal result ->
                number = Normal (or_else result (VNum 0))))
    /\ (forall e, polled = Abrupt e -> number = Normal (VNum 0))
    /\ (forall response e,
          polled = Normal response -> json response = Abrupt e -> number = Normal (VNum 0))
    /\ (exists value, number = Normal value).
Proof.
  intros this contractAddress functionName params w asked simulated polled number.
  subst asked simulated polled number.
  split; [| split; [| split; [| split; [| split; [| split]]]]].
  - intros response body Hreply Hjson.
    rewrite (simulateTransaction_parsed _ _ _ _ _ _ _ Hreply Hjson).
    split; [| split].
    + intros e ->. reflexivity.
    + intros error -> ->.
      destruct (getProp error "message") as [message | e]; [| eauto].
      destruct (ToString (engine w) message) as [text | e]; eauto.
    + intros error result -> -> Hresult. exact Hresult.
  - intros e Hreply. apply simulateTransaction_unanswered. left. exact Hreply.
  - intros response e Hreply Hjson. apply simulateTransaction_unanswered.
    right. exists response. split; assumption.
  - intros response body Hreply Hjson.
    rewrite (getBlockNumber_parsed _ _ _ _ Hreply Hjson).
    split.
    + intros e ->. reflexivity.
    + intros result ->. reflexivity.
  - intros e Hreply. apply (getBlockNumber_unanswered this w e). left. exact Hreply.
  - intros response e Hreply Hjson. apply (getBlockNumber_unanswered this w e).
    right. exists response. split; assumption.
  - apply getBlockNumber_returns.
Qed.

Lemma rpc_result_or_error_witness :
  outcome (AztecContracts.simulateTransaction Scenario.client "0x2ec8" "get_total_profiles" []
             Scenario.answeringNode) = Normal (VNum 41)
  /\ outcome (AztecContracts.getBlockNumber Scenario.client Scenario.answeringNode)
     = Normal (VNum 41)
  /\ outcome (AztecContracts.getBlockNumber Scenario.client Scenario.noExtension)
     = Normal (VNum 0).
Proof.
  destruct (rpc_result_or_error Scenario.client "0x2ec8" "get_total_profiles" []
              Scenario.answeringNode) as (Hsimulate & _ & _ & Hblock & _).
  destruct (rpc_result_or_error Scenario.client "0x2ec8" "get_total_profiles" []
              Scenario.noExtension) as (_ & _ & _ & _ & Hoffline & _).
  split; [| split].
  - exact (proj2 (proj2 (Hsimulate (Scenario.okResponse Scenario.resultBody)
                           Scenario.resultBody eq_refl eq_refl))
             VUndefined (VNum 41) eq_refl eq_refl eq_refl).
  - exact (proj2 (Hblock (Scenario.okResponse Scenario.resultBody)
                    Scenario.resultBody eq_refl eq_refl)
             (VNum 41) eq_refl).
  - exact (Hoffline (TypeError "Failed to fetch") eq_refl).
Defined.

(** *** The contract wrappers *)

Lemma bind_outcome_abrupt {A B} (m : M A) (k : A -> M B) w e :
  outcome (m w) = Abrupt e -> outcome (bind m k w) = Abrupt e.
Proof.
  unfold outcome, bind. destruct (m w) as [[a | e'] w']; simpl; intros H.
  - discriminate H.
  - injection H as ->. reflexivity.
Qed.

(** C3.  Whatever exception the underlying [simulateTransaction] call
    raises, each read wrapper returns its hard-coded default and does not
    throw: [hasProfile] gives [false], [getProfileId] gives ['0'],
    [getTotalProfiles] gives [0], and [getProfileVerifications] gives
    exactly [[false, false, false, false, false, false]]. *)
Theorem read_wrappers_default_on_exception :
  forall (this : AztecContracts.AztecContractClient) (user profileId : string) (w : World),
    let rpc := AztecContracts.rpc this in
    let registry := AztecContracts.profileRegistryAddress this in
    let social := AztecContracts.privateSocialAddress this in
    (forall e,
        outcome (AztecContracts.simulateTransaction rpc registry "has_profile" [VStr user] w)
        = Abrupt e ->
        outcome (AztecContracts.hasProfile this user w) = Normal false)
    /\ (forall e,
        outcome (AztecContracts.simulateTransaction rpc registry "get_profile_id" [VStr user] w)
        = Abrupt e ->
        outcome (AztecContracts.getProfileId this user w) = Normal (VStr "0"))
    /\ (forall e,
        outcome (AztecContracts.simulateTransaction rpc registry "get_total_profiles" [] w)
        = Abrupt e ->
        outcome (AztecContracts.getTotalProfiles this w) = Normal (VNum 0))
    /\ (forall e,
        outcome (AztecContracts.simulateTransaction rpc social "get_profile_verifications"
                   [VStr profileId] w)
        = Abrupt e ->
        outcome (AztecContracts.getProfileVerifications this profileId w)
        = Normal (VArr [VBool false; VBool false; VBool false;
                        VBool false; VBool false; VBool false])).
Proof.
  intros this user profileId w rpc registry social.
  repeat split; intros e Hraised;
    eapply default_on_exception, bind_outcome_abrupt, Hraised.
Qed.

Lemma read_wrappers_default_on_exception_witness :
  outcome (AztecContracts.hasProfile AztecContracts.aztecContracts "0xABC" Scenario.noExtension)
  = Normal false
  /\ outcome (AztecContracts.getProfileId AztecContracts.aztecContracts "0xABC"
                Scenario.noExtension)
     = Normal (VStr "0")
  /\ outcome (AztecContracts.getTotalProfiles AztecContracts.aztecContracts
                Scenario.noExtension)
     = Normal (VNum 0)
  /\ outcome (AztecContracts.getProfileVerifications AztecContracts.aztecContracts "1"
                Scenario.noExtension)
     = Normal (VArr [VBool false; VBool false; VBool false;
                     VBool false; VBool false; VBool false]).
Proof.
  destruct (read_wrappers_default_on_exception AztecContracts.aztecContracts "0xABC" "1"
              Scenario.noExtension) as [Hhas [Hid [Htotal Hflags]]].
  split; [| split; [| split]].
  - exact (Hhas (TypeError "Failed to fetch") eq_refl).
  - exact (Hid (TypeError "Failed to fetch") eq_refl).
  - exact (Htotal (TypeError "Failed to fetch") eq_refl).
  - exact (Hflags (TypeError "Failed to fetch") eq_refl).
Defined.

(** *** Extracting the address *)

Lemma split_nonempty (sep : ascii) (s : string) : split sep s <> [].
Proof.
  destruct s as [| c s]; simpl; [discriminate |].
  destruct (Ascii.eqb c sep); [discriminate |].
  destruct (split sep s); discriminate.
Qed.

(** A text without [':'] is a single part. *)
Lemma split_without_separator (s : string) :
  includes ":" s = false -> split ":" s = [s].
Proof.
  induction s as [| c s IH]; [reflexivity |].
  cbn [includes split String.prefix]. intros H.
  apply orb_false_elim in H. destruct H as [Hhead Htail].
  destruct (Ascii.eqb_spec c ":") as [-> | Hneq].
  - destruct (ascii_dec ":" ":") as [_ | Hno]; [| contradiction].
    destruct s; discriminate Hhead.
  - rewrite (IH Htail). reflexivity.
Qed.

Lemma includes_separator (front back : string) :
  includes ":" (front ++ ":" ++ back) = true.
Proof.
  induction front as [| c front IH].
  - cbn [append includes String.prefix].
    destruct (ascii_dec ":" ":") as [_ | Hno]; [| contradiction].
    destruct back; reflexivity.
  - change ((String c front) ++ ":" ++ back) with (String c (front ++ ":" ++ back)).
    cbn [includes]. rewrite IH. apply orb_true_r.
Qed.

(** [parts[parts.length - 1]] skips a first element that is not the last. *)
Lemma lastPart_cons (part : string) (parts : list string) :
  parts <> [] ->
  AzguardClientTs.lastPart (part :: parts) = AzguardClientTs.lastPart parts.
Proof.
  intros Hparts. destruct parts as [| p parts]; [contradiction |].
  unfold AzguardClientTs.lastPart.
  replace (List.length (part :: p :: parts) - 1)%nat with (S (List.length parts)) by (simpl; lia).
  replace (List.length (p :: parts) - 1)%nat with (List.length parts) by (simpl; lia).
  reflexivity.
Qed.

Lemma split_after_separator (front back : string) :
  exists part parts,
    split ":" (front ++ ":" ++ back) = part :: parts /\ parts <> [].
Proof.
  induction front as [| c front IH].
  - exists "", (split ":" back). split; [reflexivity | apply split_nonempty].
  - destruct IH as [part [parts [Hsplit Hparts]]].
    change ((String c front) ++ ":" ++ back) with (String c (front ++ ":" ++ back)).
    cbn [split]. rewrite Hsplit.
    destruct (Ascii.eqb c ":").
    + eexists _, _. split; [reflexivity | discriminate].
    + eexists _, _. split; [reflexivity | exact Hparts].
Qed.

(** The last part of a split text is the last part of what follows any of
    its separators. *)
Lemma lastPart_split (front back : string) :
  AzguardClientTs.lastPart (split ":" (front ++ ":" ++ back))
  = AzguardClientTs.lastPart (split ":" back).
Proof.
  induction front as [| c front IH].
  - change ("" ++ ":" ++ back) with (String ":" back).
    cbn [split]. rewrite Ascii.eqb_refl. apply lastPart_cons, split_nonempty.
  - change ((String c front) ++ ":" ++ back) with (String c (front ++ ":" ++ back)).
    cbn [split].
    destruct (split_after_separator front back) as [part [parts [Hsplit Hparts]]].
    rewrite Hsplit in IH |- *.
    destruct (Ascii.eqb c ":").
    + rewrite lastPart_cons by discriminate. exact IH.
    + rewrite lastPart_cons by exact Hparts.
      rewrite lastPart_cons in IH by exact Hparts. exact IH.
Qed.

(** C4.  For an account string with [':'] separators, the address
    extraction of [connectAzGuard] splits on [':'] and yields the trailing
    segment: what follows the last [':'] (so ["0xABC"] for
    ["aztec:11155111:0xABC"]); a string without [':'] is yielded unchanged. *)
Theorem parseAddress_trailing_segment :
  forall (w : World) (front address : string),
    includes ":" address = false ->
    outcome (AzguardClientTs.parseAddress (VStr (front ++ ":" ++ address)) w)
    = Normal (VStr address)
    /\ outcome (AzguardClientTs.parseAddress (VStr address) w) = Normal (VStr address).
Proof.
  intros w front address Hnone. unfold AzguardClientTs.parseAddress. split.
  - rewrite includes_separator, lastPart_split, (split_without_separator _ Hnone).
    reflexivity.
  - rewrite Hnone. reflexivity.
Qed.

Lemma parseAddress_trailing_segment_witness :
  (outcome (AzguardClientTs.parseAddress (VStr "aztec:11155111:0xABC") Scenario.walletReady)
   = Normal (VStr "0xABC")
   /\ outcome (AzguardClientTs.parseAddress (VStr "0xABC") Scenario.walletReady)
      = Normal (VStr "0xABC"))
  /\ (exists result,
         outcome (AzguardClientTs.connectAzGuard Scenario.walletReady) = Normal result
         /\ AzguardClientTs.address_ result = Some (VStr "0xABC")).
Proof.
  split.
  - apply (parseAddress_trailing_segment Scenario.walletReady "aztec:11155111" "0xABC").
    reflexivity.
  - eexists. split; reflexivity.
Defined.

(** *** The account-abstraction stub *)

Lemma byteToHex_shape (b : byte) : exists c1 c2, byteToHex b = String c1 (String c2 "").
Proof. destruct b; do 2 eexists; reflexivity. Qed.

(** The two digits of a byte read back as that byte. *)
Lemma byteToHex_value (b : byte) : HexString.Raw.to_N (byteToHex b) 0 = Byte.to_N b.
Proof. destruct b; reflexivity. Qed.

Lemma byteToHex_injective (a b : byte) : byteToHex a = byteToHex b -> a = b.
Proof.
  intros H. apply (f_equal (fun s => HexString.Raw.to_N s 0)) in H.
  rewrite !byteToHex_value in H.
  apply (f_equal Byte.of_N) in H. rewrite !Byte.of_to_N in H.
  injection H as ->. reflexivity.
Qed.

Lemma bytesToHex_cons (b : byte) (bytes : list byte) :
  bytesToHex (b :: bytes) = byteToHex b ++ bytesToHex bytes.
Proof.
  unfold bytesToHex, joinWith. cbn [List.map String.concat].
  destruct (List.map byteToHex bytes) as [| h rest] eqn:Hmap.
  - simpl. destruct (byteToHex_shape b) as [c1 [c2 ->]]. reflexivity.
  - reflexivity.
Qed.

(** Distinct byte arrays print as distinct hex strings. *)
Lemma bytesToHex_injective (xs ys : list byte) :
  bytesToHex xs = bytesToHex ys -> xs = ys.
Proof.
  revert ys. induction xs as [| x xs IH]; intros [| y ys] H.
  - reflexivity.
  - rewrite bytesToHex_cons in H.
    destruct (byteToHex_shape y) as [c1 [c2 Hy]]. rewrite Hy in H. discriminate H.
  - rewrite bytesToHex_cons in H.
    destruct (byteToHex_shape x) as [c1 [c2 Hx]]. rewrite Hx in H. discriminate H.
  - rewrite !bytesToHex_cons in H.
    destruct (byteToHex_shape x) as [c1 [c2 Hx]].
    destruct (byteToHex_shape y) as [d1 [d2 Hy]].
    rewrite Hx, Hy in H. simpl in H. injection H as H1 H2 Hrest.
    f_equal.
    + apply byteToHex_injective. rewrite Hx, Hy, H1, H2. reflexivity.
    + apply IH, Hrest.
Qed.

Lemma bind_inv {A B} (m : M A) (k : A -> M B) w b w' :
  bind m k w = (Normal b, w') ->
  exists a w1, m w = (Normal a, w1) /\ k a w1 = (Normal b, w').
Proof.
  unfold bind. destruct (m w) as [[a | e] w1]; intros H.
  - exists a, w1. split; [reflexivity | exact H].
  - discriminate H.
Qed.

Lemma run_eq {A} (c1 c2 : Completion A) (w1 w2 : World) :
  (c1, w1) = (c2, w2) -> c1 = c2 /\ w1 = w2.
Proof. intros H. injection H as -> ->. split; reflexivity. Qed.

Lemma normal_eq {A} (a b : A) : @Normal A a = Normal b -> a = b.
Proof. intros H. injection H as ->. reflexivity. Qed.

(** Take the first statement off a sequence that ran to completion. *)
Ltac peel H a w1 Hstep :=
  apply bind_inv in H; destruct H as (a & w1 & Hstep & H).

Ltac worlds H :=
  cbn [engine console randomSource randomTaken entropy entropyTaken network requests
       sha256 windowOpen opened origin extInstalled extCreate extConnect clients
       azguardInstance withConsole withRandomTaken withEntropyTaken withRequests] in H.

(** The same for a statement that cannot throw. *)
Ltac ran H a Hvalue :=
  let w1 := fresh "w" in
  let Hstep := fresh "Hstep" in
  peel H a w1 Hstep;
  apply run_eq in Hstep; destruct Hstep as [Hvalue <-];
  worlds H; worlds Hvalue.

Ltac logged H :=
  let u := fresh "u" in
  let Hu := fresh "Hu" in
  ran H u Hu; clear Hu u.

Lemma generateAAAddress_run this w :
  AccountAbstraction.generateAAAddress this w
  = (Normal ("0x" ++ bytesToHex (Observed.draw w)),
     withEntropyTaken (entropyTaken w + 32) w).
Proof. reflexivity. Qed.

Lemma hashString_inv this input w hash w' :
  AccountAbstraction.hashString this input w = (Normal hash, w') ->
  exists digest,
    sha256 w (utf8 input) = Normal digest
    /\ hash = "0x" ++ bytesToHex digest
    /\ w = w'.
Proof.
  unfold AccountAbstraction.hashString, bind, subtleDigest, ret.
  destruct (sha256 w (utf8 input)) as [digest | e]; intros H.
  - apply run_eq in H. destruct H as [H ->]. apply normal_eq in H.
    exists digest. repeat split. symmetry. exact H.
  - discriminate H.
Qed.

(** C7, as stated, fails where it calls the returned address distinct from
    the deployed one: nothing in [createAAAccount] compares the two, so they
    are as distinct as the two draws of [crypto.getRandomValues] are.  On a
    page whose random source fills every array with [0x2a], the call
    succeeds, the reply names no address, and the address returned is the
    [origin] that was sent in the deployment transaction. *)
Lemma createAAAccount_may_repeat_deployed_address :
  let run := AccountAbstraction.createAAAccount AccountAbstraction.aztecAccountAbstraction
               Scenario.repeatingSource in
  let repeated :=
    VStr "0x2a2a2a2a2a2a2a2a2a2a2a2a2a2a2a2a2a2a2a2a2a2a2a2a2a2a2a2a2a2a2a2a" in
  exists result this' request rest,
    outcome run = Normal (result, this')
    /\ AccountAbstraction.success result = true
    /\ requests (after run) = request :: rest
    /\ network Scenario.repeatingSource (requests (after run))
       = Normal (Scenario.okResponse Scenario.deployedBody)
    /\ Observed.servedAddress Scenario.deployedBody = Normal VUndefined
    /\ Observed.deployedOrigin request = Normal repeated
    /\ AccountAbstraction.address_ result = Some repeated.
Proof.
  intros run repeated.
  let value := eval vm_compute in (outcome run) in
  let sent := eval vm_compute in (requests (after run)) in
  lazymatch value with
  | Normal (?result, ?this') =>
      lazymatch sent with
      | ?request :: ?rest =>
          exists result, this', request, rest;
          split; [vm_compute; reflexivity |];
          split; [vm_compute; reflexivity |];
          split; [vm_compute; reflexivity |];
          split; [vm_compute; reflexivity |];
          split; [vm_compute; reflexivity |];
          split; vm_compute; reflexivity
      end
  end.
Qed.

(** C7, amended.  When [createAAAccount] succeeds and the reply to the
    account-creation request names no address in its result, the address of
    the success record (and of the stored account) is the hex print of 32
    random bytes taken by a second call of [generateAAAddress]: no reply
    enters it, and the bytes are the 32 that follow those of the address
    placed as [origin] in the deployment transaction that was sent.  The two
    addresses are two separate draws, and they differ exactly when the two
    draws of 32 bytes differ.  ([requests w'] lists every
    request made by the end of the run, newest first, so
    [network w (requests w')] is the reply to the account-creation request.) *)
Theorem createAAAccount_returns_fresh_address :
  forall (this this' : AccountAbstraction.AztecAccountAbstraction) (w w' : World)
         (result : AccountAbstraction.AAAccountResult)
         (response : Response) (body served : Value),
    AccountAbstraction.createAAAccount this w = (Normal (result, this'), w') ->
    AccountAbstraction.success result = true ->
    network w (requests w') = Normal response ->
    json response = Normal body ->
    Observed.servedAddress body = Normal served ->
    truthy served = false ->
    let sent := "0x" ++ bytesToHex (Observed.firstDraw w) in
    let fresh := "0x" ++ bytesToHex (Observed.secondDraw w) in
    (exists request rest,
        requests w' = request :: rest
        /\ Observed.deployedOrigin request = Normal (VStr sent))
    /\ AccountAbstraction.address_ result = Some (VStr fresh)
    /\ option_map AccountAbstraction.address (AccountAbstraction.getCurrentAccount this')
       = Some (VStr fresh)
    /\ List.length (Observed.secondDraw w) = 32%nat
    /\ (fresh = sent <-> Observed.secondDraw w = Observed.firstDraw w)
    /\ entropyTaken w' = (entropyTaken w + 64)%nat.
Proof.
  intros this this' w w' result response body served
    Hrun Hsuccess Hreply Hjson Hserved Hfalsy sent fresh.
  unfold AccountAbstraction.createAAAccount, tryCatch in Hrun.
  match type of Hrun with
  | (match ?body w with _ => _ end) = _ =>
      destruct (body w) as [[[result0 this0] | e] w0] eqn:Hbody
  end.
  2: { cbv [bind consoleError ret] in Hrun. injection Hrun as Hr _ _.
       subst result. discriminate Hsuccess. }
  injection Hrun as -> -> ->. clear Hsuccess.
  do 4 logged Hbody.
  ran Hbody statusResponse Hstatus.
  destruct (ok statusResponse); [| discriminate Hbody]. cbn [negb] in Hbody.
  ran Hbody statusResult HstatusJson.
  do 2 logged Hbody.
  peel Hbody aaAddress w3 Haddress.
  rewrite generateAAAddress_run in Haddress.
  apply run_eq in Haddress. destruct Haddress as [Haddress <-]. worlds Hbody.
  apply normal_eq in Haddress. unfold Observed.draw in Haddress. worlds Haddress.
  peel Hbody argsHash w4 Hhash.
  apply hashString_inv in Hhash. destruct Hhash as (digest & Hdigest & Hhash & <-).
  worlds Hdigest.
  ran Hbody r Hrandom.
  logged Hbody.
  ran Hbody createResponse Hcreate.
  destruct (ok createResponse); [| discriminate Hbody]. cbn [negb] in Hbody.
  ran Hbody createResult HcreateJson.
  logged Hbody.
  ran Hbody rpcResult Hresult.
  ran Hbody served' Hserved'.
  peel Hbody chosen w11 Hchoice.
  assert (Hworld :
            requests w' = requests w11 /\ entropyTaken w' = entropyTaken w11
            /\ AccountAbstraction.address_ result = Some chosen
            /\ option_map AccountAbstraction.address (AccountAbstraction.account this')
               = Some chosen).
  { ran Hbody rpcResult' Hresult'.
    ran Hbody txHash Htx.
    do 2 logged Hbody.
    peel Hbody u w12 Hlink.
    apply run_eq in Hbody. destruct Hbody as [Hbody <-].
    apply normal_eq in Hbody. injection Hbody as <- <-.
    destruct (truthy txHash).
    - logged Hlink. ran Hlink link Hlink'.
      apply run_eq in Hlink. destruct Hlink as [_ <-]. repeat split.
    - apply run_eq in Hlink. destruct Hlink as [_ <-]. repeat split. }
  destruct Hworld as (Hrequests & Hentropy & Hrecord & Haccount).
  rewrite Hrequests in Hreply.
  destruct (truthy served') eqn:Htruthy.
  - (* the server named an address: excluded by the hypotheses *)
    apply run_eq in Hchoice. destruct Hchoice as [_ <-].
    worlds Hreply. rewrite Hcreate in Hreply. apply normal_eq in Hreply. subst response.
    rewrite HcreateJson in Hjson. apply normal_eq in Hjson. subst body.
    unfold Observed.servedAddress in Hserved. rewrite Hresult, Hserved' in Hserved.
    apply normal_eq in Hserved. congruence.
  - peel Hchoice fresh' w12 Hfresh.
    rewrite generateAAAddress_run in Hfresh.
    apply run_eq in Hfresh. destruct Hfresh as [Hfresh <-].
    apply normal_eq in Hfresh. unfold Observed.draw in Hfresh. worlds Hfresh.
    apply run_eq in Hchoice. destruct Hchoice as [Hchoice <-].
    apply normal_eq in Hchoice. subst chosen fresh'.
    worlds Hrequests. worlds Hentropy.
    split; [| split; [| split; [| split; [| split]]]].
    + do 2 eexists. split; [exact Hrequests |].
      subst aaAddress. reflexivity.
    + exact Hrecord.
    + exact Haccount.
    + unfold Observed.secondDraw. rewrite List.length_map, List.length_seq. reflexivity.
    + subst sent fresh. unfold Observed.firstDraw, Observed.secondDraw, Observed.draw. split.
      * intros H. injection H as H. apply bytesToHex_injective, H.
      * intros ->. reflexivity.
    + rewrite Hentropy. lia.
Qed.

Lemma createAAAccount_returns_fresh_address_witness :
  (exists result this',
      outcome (AccountAbstraction.createAAAccount AccountAbstraction.aztecAccountAbstraction
                 Scenario.deployingNode) = Normal (result, this')
      /\ AccountAbstraction.address_ result
         = Some (VStr "0x202122232425262728292a2b2c2d2e2f303132333435363738393a3b3c3d3e3f"))
  /\ (exists request rest,
         requests (after (AccountAbstraction.createAAAccount
                            AccountAbstraction.aztecAccountAbstraction
                            Scenario.deployingNode)) = request :: rest
         /\ Observed.deployedOrigin request
            = Normal (VStr "0x000102030405060708090a0b0c0d0e0f101112131415161718191a1b1c1d1e1f")).
Proof.
  pose (run := AccountAbstraction.createAAAccount AccountAbstraction.aztecAccountAbstraction
                 Scenario.deployingNode).
  let value := eval vm_compute in (fst run) in
  lazymatch value with
  | Normal (?result, ?this') =>
      assert (Hout : fst run = Normal (result, this')) by (vm_compute; reflexivity);
      assert (Hrun : run = (Normal (result, this'), snd run))
        by (transitivity (fst run, snd run);
            [apply surjective_pairing | rewrite Hout; reflexivity]);
      destruct (createAAAccount_returns_fresh_address
                  AccountAbstraction.aztecAccountAbstraction this'
                  Scenario.deployingNode (snd run) result
                  (Scenario.okResponse Scenario.deployedBody) Scenario.deployedBody VUndefined
                  Hrun) as (Hsent & Haddress & _);
      [ vm_compute; reflexivity | vm_compute; reflexivity | reflexivity
      | reflexivity | reflexivity | ];
      split; [exists result, this'; split; [exact Hout | exact Haddress] | exact Hsent]
  end.
Defined.

(** ** Further properties of the RPC client and the contract wrappers *)

(** Every call of [simulateTransaction] sends one request. *)
Lemma simulateTransaction_requests this contractAddress functionName params w :
  requests (after (AztecContracts.simulateTransaction this contractAddress functionName params w))
  = AztecContracts.simulateRequest this contractAddress functionName params :: requests w.
Proof.
  unfold AztecContracts.simulateTransaction, tryCatch, bind, fetch, responseJson,
    lift, templateString, throw, consoleError, after.
  destruct (network w _) as [response | e]; simpl; [| reflexivity].
  destruct (json response) as [body | e]; simpl; [| reflexivity].
  destruct (getProp body "error") as [error | e]; simpl; [| reflexivity].
  destruct (truthy error); simpl.
  - destruct (getProp error "message") as [message | e]; simpl; [| reflexivity].
    destruct (ToString (engine w) message) as [text | e]; reflexivity.
  - destruct (getProp body "result"); reflexivity.
Qed.

(** X2.  When [fetch] rejects, [simulateTransaction] rethrows the very value
    [fetch] rejected with, after one [console.error]. *)
Theorem simulateTransaction_rethrows this contractAddress functionName params w e :
  network w (AztecContracts.simulateRequest this contractAddress functionName params
               :: requests w) = Abrupt e ->
  outcome (AztecContracts.simulateTransaction this contractAddress functionName params w)
  = Abrupt e
  /\ console (after (AztecContracts.simulateTransaction this contractAddress functionName params w))
     = (Err, "Simulation failed for " ++ functionName ++ ":") :: console w.
Proof.
  intros Hnet.
  unfold AztecContracts.simulateTransaction, tryCatch, bind, fetch, throw, consoleError,
    outcome, after.
  rewrite Hnet. simpl. split; reflexivity.
Qed.

Lemma getBlockNumber_requests this w :
  requests (after (AztecContracts.getBlockNumber this w))
  = AztecContracts.blockNumberRequest this :: requests w.
Proof.
  unfold AztecContracts.getBlockNumber, tryCatch, bind, fetch, responseJson,
    lift, ret, consoleError, after.
  destruct (network w _) as [response | e]; simpl; [| reflexivity].
  destruct (json response) as [body | e]; simpl; [| reflexivity].
  destruct (getProp body "result"); reflexivity.
Qed.

(** A wrapper around one [simulateTransaction] call whose continuation and
    handler leave the list of requests alone sends what that call sends. *)
Lemma wrapper_requests {A} this contractAddress functionName params
    (k : Value -> M A) (handler : Thrown -> M A) w :
  (forall v w1, requests (after (k v w1)) = requests w1) ->
  (forall e w1, requests (after (handler e w1)) = requests w1) ->
  requests (after (tryCatch
                     (bind (AztecContracts.simulateTransaction this contractAddress
                              functionName params) k)
                     handler w))
  = AztecContracts.simulateRequest this contractAddress functionName params :: requests w.
Proof.
  intros Hk Hhandler.
  pose proof (simulateTransaction_requests this contractAddress functionName params w) as Hsent.
  unfold tryCatch, bind, after in *.
  destruct (AztecContracts.simulateTransaction this contractAddress functionName params w)
    as [[v | e] w1]; simpl in Hsent.
  - specialize (Hk v w1). destruct (k v w1) as [[a | e] w2]; simpl in Hk |- *.
    + congruence.
    + rewrite Hhandler. congruence.
  - rewrite Hhandler. exact Hsent.
Qed.

(** X1.  [simulateTransaction], [getBlockNumber] and each contract wrapper
    send exactly one request per call, whatever the reply and whatever the
    outcome: nothing is retried. *)
Theorem rpc_calls_send_one_request :
  forall (this : AztecContracts.AztecContractClient) (user profileId : string)
         (contractAddress functionName : string) (params : list Value) (w : World),
    let rpc := AztecContracts.rpc this in
    let registry := AztecContracts.profileRegistryAddress this in
    let social := AztecContracts.privateSocialAddress this in
    requests (after (AztecContracts.simulateTransaction rpc contractAddress functionName params w))
    = AztecContracts.simulateRequest rpc contractAddress functionName params :: requests w
    /\ requests (after (AztecContracts.getBlockNumber rpc w))
       = AztecContracts.blockNumberRequest rpc :: requests w
    /\ requests (after (AztecContracts.hasProfile this user w))
       = AztecContracts.simulateRequest rpc registry "has_profile" [VStr user] :: requests w
    /\ requests (after (AztecContracts.getProfileId this user w))
       = AztecContracts.simulateRequest rpc registry "get_profile_id" [VStr user] :: requests w
    /\ requests (after (AztecContracts.getTotalProfiles this w))
       = AztecContracts.simulateRequest rpc registry "get_total_profiles" [] :: requests w
    /\ requests (after (AztecContracts.getProfileVerifications this profileId w))
       = AztecContracts.simulateRequest rpc social "get_profile_verifications"
           [VStr profileId] :: requests w
    /\ requests (after (AztecContracts.isTwitterVerified this profileId w))
       = AztecContracts.simulateRequest rpc social "is_twitter_verified"
           [VStr profileId] :: requests w.
Proof.
  intros this user profileId contractAddress functionName params w rpc registry social.
  split; [apply simulateTransaction_requests |].
  split; [apply getBlockNumber_requests |].
  repeat split; apply wrapper_requests; intros; try reflexivity.
  - unfold bind, after. destruct (toStringOpt (engine w1) v); reflexivity.
  - unfold bind, after. destruct (parseInt (engine w1) v); reflexivity.
Qed.

Lemma toStringOpt_shape E v t :
  toStringOpt E v = Normal t -> t = VUndefined \/ exists s, t = VStr s.
Proof.
  unfold toStringOpt.
  destruct v as [| | b | x | s | items | fields].
  1,2: intros H; injection H as <-; left; reflexivity.
  1-4: destruct (ToString E _) as [s' | e]; intros H;
       [injection H as <-; right; eexists; reflexivity | discriminate H].
  destruct (lookup "toString" fields); intros H;
    [discriminate H | injection H as <-; right; eexists; reflexivity].
Qed.

Lemma string_eqb_false_nonempty s : String.eqb s "" = false -> s <> "".
Proof. intros H ->. discriminate H. Qed.

(** X3.  The read wrappers never throw, whatever the host does, and their
    values are well formed: [getProfileId] gives a non-empty string,
    [getTotalProfiles] a number that is not [NaN], and
    [getProfileVerifications] an array. *)
Theorem read_wrappers_return_typed_values :
  forall (this : AztecContracts.AztecContractClient) (user profileId : string) (w : World),
    (exists b, outcome (AztecContracts.hasProfile this user w) = Normal b)
    /\ (exists b, outcome (AztecContracts.isTwitterVerified this profileId w) = Normal b)
    /\ (exists s, outcome (AztecContracts.getProfileId this user w) = Normal (VStr s)
                  /\ s <> "")
    /\ (exists x, outcome (AztecContracts.getTotalProfiles this w) = Normal (VNum x)
                  /\ PrimFloat.eqb x x = true)
    /\ (exists items,
           outcome (AztecContracts.getProfileVerifications this profileId w)
           = Normal (VArr items)).
Proof.
  intros this user profileId w.
  unfold AztecContracts.hasProfile, AztecContracts.isTwitterVerified,
    AztecContracts.getProfileId, AztecContracts.getTotalProfiles,
    AztecContracts.getProfileVerifications, tryCatch, bind, ret, consoleError, outcome.
  repeat match goal with
         | |- _ /\ _ => split
         end.
  - destruct (AztecContracts.simulateTransaction _ _ _ _ w) as [[r | e] w1];
      simpl; eexists; reflexivity.
  - destruct (AztecContracts.simulateTransaction _ _ _ _ w) as [[r | e] w1];
      simpl; eexists; reflexivity.
  - destruct (AztecContracts.simulateTransaction _ _ _ _ w) as [[r | e] w1]; simpl.
    + destruct (toStringOpt (engine w1) r) as [t | e] eqn:Htext; simpl.
      * destruct (toStringOpt_shape _ _ _ Htext) as [-> | [s ->]].
        -- exists "0". split; [reflexivity | discriminate].
        -- unfold or_else. simpl. destruct (String.eqb s "") eqn:Hs; simpl.
           ++ exists "0". split; [reflexivity | discriminate].
           ++ exists s. split; [reflexivity | apply string_eqb_false_nonempty, Hs].
      * exists "0". split; [reflexivity | discriminate].
    + exists "0". split; [reflexivity | discriminate].
  - destruct (AztecContracts.simulateTransaction _ _ _ _ w) as [[r | e] w1]; simpl.
    + destruct (parseInt (engine w1) r) as [count | e]; simpl.
      * unfold or_else. destruct (truthy (VNum count)) eqn:Hcount.
        -- exists count. split; [reflexivity |].
           simpl in Hcount. apply andb_true_iff in Hcount. apply Hcount.
        -- exists 0%float. split; reflexivity.
      * exists 0%float. split; reflexivity.
    + exists 0%float. split; reflexivity.
  - destruct (AztecContracts.simulateTransaction _ _ _ _ w) as [[r | e] w1]; simpl.
    + destruct r; simpl; eexists; reflexivity.
    + eexists; reflexivity.
Qed.

(** X4.  [hasProfile] is [Boolean(result)] of the simulated result: every
    non-empty string counts as [true], also ["false"] and ["0"]. *)
Theorem hasProfile_is_truthiness :
  forall (this : AztecContracts.AztecContractClient) (user : string) (w : World) (result : Value),
    outcome (AztecContracts.simulateTransaction (AztecContracts.rpc this)
               (AztecContracts.profileRegistryAddress this) "has_profile" [VStr user] w)
    = Normal result ->
    outcome (AztecContracts.hasProfile this user w) = Normal (truthy result)
    /\ (forall s, result = VStr s -> s <> "" ->
                  outcome (AztecContracts.hasProfile this user w) = Normal true).
Proof.
  intros this user w result Hsim.
  assert (Hret : outcome (AztecContracts.hasProfile this user w) = Normal (truthy result)).
  { unfold AztecContracts.hasProfile, tryCatch, bind, ret, outcome in *.
    destruct (AztecContracts.simulateTransaction _ _ _ _ w) as [[r | e] w1]; simpl in *.
    - injection Hsim as ->. reflexivity.
    - discriminate Hsim. }
  split; [exact Hret |].
  intros s -> Hs. rewrite Hret. simpl.
  destruct s; [contradiction | reflexivity].
Qed.

(** X5.  [getProfileVerifications] hands back an array result as it came,
    whatever its length and elements; every other result becomes six
    [false]. *)
Theorem getProfileVerifications_passes_arrays :
  forall (this : AztecContracts.AztecContractClient) (profileId : string) (w : World)
         (result : Value),
    outcome (AztecContracts.simulateTransaction (AztecContracts.rpc this)
               (AztecContracts.privateSocialAddress this) "get_profile_verifications"
               [VStr profileId] w)
    = Normal result ->
    (forall items, result = VArr items ->
       outcome (AztecContracts.getProfileVerifications this profileId w) = Normal (VArr items))
    /\ (isArray result = false ->
        outcome (AztecContracts.getProfileVerifications this profileId w)
        = Normal AztecContracts.sixFalse).
Proof.
  intros this profileId w result Hsim.
  unfold AztecContracts.getProfileVerifications, tryCatch, bind, ret, outcome in *.
  destruct (AztecContracts.simulateTransaction _ _ _ _ w) as [[r | e] w1]; simpl in *.
  - injection Hsim as ->. split.
    + intros items ->. reflexivity.
    + intros ->. reflexivity.
  - discriminate Hsim.
Qed.

Lemma simulateTransaction_rethrows_witness :
  outcome (AztecContracts.simulateTransaction Scenario.client "0x2ec8" "has_profile"
             [VStr "0xABC"] Scenario.noExtension)
  = Abrupt (TypeError "Failed to fetch").
Proof.
  apply (proj1 (simulateTransaction_rethrows Scenario.client "0x2ec8" "has_profile"
                  [VStr "0xABC"] Scenario.noExtension (TypeError "Failed to fetch")
                  eq_refl)).
Defined.

Lemma hasProfile_is_truthiness_witness :
  outcome (AztecContracts.hasProfile AztecContracts.aztecContracts "0xABC" Scenario.stringNode)
  = Normal true.
Proof.
  apply (proj2 (hasProfile_is_truthiness AztecContracts.aztecContracts "0xABC"
                  Scenario.stringNode (VStr "false") eq_refl) "false" eq_refl).
  discriminate.
Defined.

Lemma getProfileVerifications_passes_arrays_witness :
  outcome (AztecContracts.getProfileVerifications AztecContracts.aztecContracts "1"
             Scenario.shortArrayNode)
  = Normal (VArr [VBool true; VStr "yes"]).
Proof.
  apply (proj1 (getProfileVerifications_passes_arrays AztecContracts.aztecContracts "1"
                  Scenario.shortArrayNode (VArr [VBool true; VStr "yes"]) eq_refl)).
  reflexivity.
Defined.

(** ** Further properties of the codec helpers *)

(** *** The rolling hash as arithmetic *)

Local Open Scope Z_scope.

Lemma ToInt32_range z : - 2 ^ 31 <= ToInt32 z < 2 ^ 31.
Proof.
  unfold ToInt32. pose proof (Z.mod_pos_bound z (2 ^ 32) ltac:(lia)) as Hm.
  destruct (Z.geb_spec (z mod 2 ^ 32) (2 ^ 31)); lia.
Qed.

Lemma ToInt32_mod z : ToInt32 z mod 2 ^ 32 = z mod 2 ^ 32.
Proof.
  unfold ToInt32. destruct (Z.geb_spec (z mod 2 ^ 32) (2 ^ 31)).
  - replace (z mod 2 ^ 32 - 2 ^ 32) with (z mod 2 ^ 32 + (-1) * 2 ^ 32) by lia.
    rewrite Z.mod_add by lia. apply Z.mod_mod. lia.
  - apply Z.mod_mod. lia.
Qed.

Lemma ToInt32_congruent a b : a mod 2 ^ 32 = b mod 2 ^ 32 -> ToInt32 a = ToInt32 b.
Proof. unfold ToInt32. intros ->. reflexivity. Qed.

Lemma ToInt32_idempotent z : ToInt32 (ToInt32 z) = ToInt32 z.
Proof. apply ToInt32_congruent, ToInt32_mod. Qed.

(** One turn of the loop multiplies by 31 and adds the code unit, modulo
    2^32. *)
Lemma hashStep_arithmetic hash char :
  AztecContracts.hashStep hash char = ToInt32 (31 * hash + char).
Proof.
  unfold AztecContracts.hashStep, and32, shl32.
  rewrite Z.land_diag, !ToInt32_idempotent.
  apply ToInt32_congruent.
  change (5 mod 32) with 5. rewrite Z.shiftl_mul_pow2 by lia.
  replace (ToInt32 (ToInt32 hash * 2 ^ 5) - hash + char)
    with (ToInt32 (ToInt32 hash * 2 ^ 5) + (char - hash)) by lia.
  rewrite Z.add_mod by lia. rewrite ToInt32_mod.
  rewrite <- Z.add_mod by lia.
  rewrite Z.add_mod by lia. rewrite Z.mul_mod by lia. rewrite ToInt32_mod.
  rewrite <- Z.mul_mod by lia. rewrite <- Z.add_mod by lia.
  f_equal. lia.
Qed.

Lemma hashStep_congruent a b char :
  a mod 2 ^ 32 = b mod 2 ^ 32 ->
  AztecContracts.hashStep a char = AztecContracts.hashStep b char.
Proof.
  intros H. rewrite !hashStep_arithmetic. apply ToInt32_congruent.
  rewrite Z.add_mod by lia. rewrite Z.mul_mod by lia. rewrite H.
  rewrite <- Z.mul_mod by lia. rewrite <- Z.add_mod by lia. reflexivity.
Qed.

Lemma hash_fold codes : forall a,
  List.fold_left AztecContracts.hashStep codes (ToInt32 a)
  = ToInt32 (List.fold_left (fun hash char => 31 * hash + char) codes a).
Proof.
  induction codes as [| c codes IH]; intros a; [reflexivity |].
  cbn [List.fold_left].
  rewrite (hashStep_congruent (ToInt32 a) a c (ToInt32_mod a)).
  rewrite hashStep_arithmetic. apply IH.
Qed.

(** X6.  [AztecRPCClient.hashString] is the 31-multiplier polynomial hash
    of the code units, reduced to a signed 32-bit integer, with the sign
    dropped: the digits printed are those of
    [|ToInt32(c0 * 31^(n-1) + ... + c(n-1))|]. *)
Theorem hashString_is_polynomial :
  forall (this : AztecContracts.AztecRPCClient) (input : string) (w : World),
    outcome (AztecContracts.hashString this input w)
    = Normal ("0x" ++ padStart 64 "0"
                        (integerToString16
                           (Z.abs (ToInt32 (Observed.poly31 (charCodes input)))))).
Proof.
  intros this input w. unfold AztecContracts.hashString, Observed.poly31.
  change 0 with (ToInt32 0) at 1. rewrite hash_fold. reflexivity.
Qed.

(** *** The shape of a printed hash *)

Local Open Scope nat_scope.


(** A positive number of at most [4 * k] bits prints in at most [k] hex
    digits. *)
Lemma of_pos_length : forall (k : nat) (p : positive) (rest : string),
  Pos.size_nat p <= 4 * k ->
  1 <= String.length (HexString.Raw.of_pos p rest) - String.length rest <= k.
Proof.
  induction k as [| k IH]; intros p rest Hsize.
  - destruct p; simpl in Hsize; lia.
  - do 4 (try destruct p as [p | p |]);
      cbn [HexString.Raw.of_pos String.length];
      try lia;
      cbn [Pos.size_nat] in Hsize;
      match goal with
      | |- context [HexString.Raw.of_pos p ?r] =>
          specialize (IH p r ltac:(lia)); cbn [String.length] in IH; lia
      end.
Qed.

Lemma integerToString16_length (n : Z) :
  (0 <= n <= 2 ^ 31)%Z ->
  1 <= String.length (integerToString16 n) <= 8.
Proof.
  intros Hn. destruct n as [| p | p]; [simpl; lia | | lia].
  unfold integerToString16.
  assert (Hsize : Pos.size_nat p <= 4 * 8).
  { destruct (Pos.eq_dec p (2 ^ 31)%positive) as [-> | Hneq].
    - vm_compute. lia.
    - pose proof (Pos.size_nat_monotone p (2 ^ 31)%positive ltac:(lia)) as Hmono.
      change (Pos.size_nat (2 ^ 31)%positive) with 32 in Hmono. exact Hmono. }
  pose proof (of_pos_length 8 p "" Hsize) as Hlen. cbn [String.length] in Hlen. lia.
Qed.

Lemma repeatString_zero_length n : String.length (repeatString "0" n) = n.
Proof. induction n as [| n IH]; simpl; [reflexivity | now rewrite IH]. Qed.

Lemma substring_all s : String.substring 0 (String.length s) s = s.
Proof. induction s as [| c s IH]; simpl; [reflexivity | now rewrite IH]. Qed.

Lemma repeatString_plus a b :
  repeatString "0" (a + b) = repeatString "0" a ++ repeatString "0" b.
Proof. induction a as [| a IH]; simpl; [reflexivity | now rewrite IH]. Qed.

Lemma string_append_assoc (a b c : string) : (a ++ b) ++ c = a ++ (b ++ c).
Proof. induction a as [| x a IH]; simpl; [reflexivity | now rewrite IH]. Qed.

Lemma string_append_length (a b : string) :
  String.length (a ++ b) = String.length a + String.length b.
Proof. induction a as [| x a IH]; simpl; [reflexivity | now rewrite IH]. Qed.

(** Padding a text of at most 8 characters to 64 puts 56 zeros in front of
    an 8-character tail. *)
Lemma padStart_short (s : string) :
  String.length s <= 8 ->
  exists digits,
    String.length digits = 8
    /\ padStart 64 "0" s = Observed.zeros 56 ++ digits.
Proof.
  intros Hlen. exists (Observed.zeros (8 - String.length s) ++ s). split.
  - rewrite string_append_length. unfold Observed.zeros.
    rewrite repeatString_zero_length. lia.
  - unfold padStart.
    destruct (Nat.leb_spec 64 (String.length s)) as [Hbig | _]; [lia |].
    cbn [String.eqb Ascii.eqb Bool.eqb].
    pose proof (substring_all (repeatString "0" (64 - String.length s))) as Hall.
    rewrite repeatString_zero_length in Hall. rewrite Hall.
    replace (64 - String.length s) with (56 + (8 - String.length s)) by lia.
    rewrite repeatString_plus, string_append_assoc. reflexivity.
Qed.

Lemma hashValue_range codes : forall acc,
  (- 2 ^ 31 <= acc < 2 ^ 31)%Z ->
  (- 2 ^ 31 <= List.fold_left AztecContracts.hashStep codes acc < 2 ^ 31)%Z.
Proof.
  induction codes as [| c codes IH]; intros acc Hacc; [exact Hacc |].
  cbn [List.fold_left]. apply IH. rewrite hashStep_arithmetic. apply ToInt32_range.
Qed.

(** X7.  Whatever the input, the string [hashString] returns is ["0x"],
    then 56 zeros, then 8 characters: at most 32 bits of the 256-bit field
    it prints depend on the input. *)
Theorem hashString_shape :
  forall (this : AztecContracts.AztecRPCClient) (input : string) (w : World),
    exists digits,
      String.length digits = 8
      /\ outcome (AztecContracts.hashString this input w)
         = Normal ("0x" ++ Observed.zeros 56 ++ digits).
Proof.
  intros this input w. unfold AztecContracts.hashString.
  pose proof (hashValue_range (charCodes input) 0%Z ltac:(lia)) as Hrange.
  set (hash := List.fold_left AztecContracts.hashStep (charCodes input) 0%Z) in *.
  destruct (integerToString16_length (Z.abs hash) ltac:(lia)) as [_ Hlen].
  destruct (padStart_short _ Hlen) as [digits [Hdigits Hpad]].
  exists digits. split; [exact Hdigits |].
  rewrite Hpad. reflexivity.
Qed.

(** *** The call encoding *)

Lemma hashString_run this input w :
  exists digits,
    String.length digits = 8
    /\ AztecContracts.hashString this input w
       = (Normal ("0x" ++ Observed.zeros 56 ++ digits), w).
Proof.
  destruct (hashString_shape this input w) as [digits [Hlen Hout]].
  exists digits. split; [exact Hlen |].
  unfold AztecContracts.hashString, ret, outcome in *. simpl in Hout.
  injection Hout as Hout. rewrite Hout. reflexivity.
Qed.

(** X8.  The selector [encodeFunctionCall] puts in front is
    ["0x00000000"] for every function name, because it is cut from the
    zero padding of the hash; without parameters every call encodes to
    exactly that string. *)
Theorem encodeFunctionCall_selector_is_zero :
  forall (this : AztecContracts.AztecRPCClient) (functionName : string) (w : World),
    outcome (AztecContracts.encodeFunctionCall this functionName [] w)
    = Normal "0x00000000"
    /\ (forall params encoded,
           outcome (AztecContracts.encodeFunctionCall this functionName params w)
           = Normal encoded ->
           exists encodedParams, encoded = "0x00000000" ++ encodedParams).
Proof.
  intros this functionName w.
  destruct (hashString_run this functionName w) as [digits [Hlen Hrun]].
  unfold AztecContracts.encodeFunctionCall, bind, outcome. rewrite Hrun.
  assert (Hslice : slice 0 10 ("0x" ++ Observed.zeros 56 ++ digits) = "0x00000000")
    by reflexivity.
  rewrite Hslice. split.
  - reflexivity.
  - intros params encoded.
    destruct (AztecContracts.encodeParams this params w) as [[parts | e] w1]; simpl.
    + intros H. injection H as <-. eexists. reflexivity.
    + discriminate.
Qed.

(** *** Decoding a hex result *)

Lemma substring_skip (a b : string) (n m : nat) :
  String.substring (String.length a + n) m (a ++ b) = String.substring n m b.
Proof. induction a as [| c a IH]; simpl; [reflexivity | exact IH]. Qed.

Lemma substring_take (a b : string) :
  String.substring 0 (String.length a) (a ++ b) = a.
Proof.
  induction a as [| c a IH]; simpl.
  - destruct b; reflexivity.
  - now rewrite IH.
Qed.

Lemma substring_length_le (n m : nat) (s : string) :
  String.length (String.substring n m s) <= String.length s - n.
Proof.
  revert n m. induction s as [| c s IH]; intros n m.
  - destruct n, m; simpl; lia.
  - destruct n as [| n].
    + destruct m as [| m]; simpl; [lia |]. specialize (IH 0 m). lia.
    + simpl. apply IH.
Qed.

Lemma prefix_append (head rest : string) : String.prefix head (head ++ rest) = true.
Proof.
  induction head as [| c head IH]; simpl.
  - destruct rest; reflexivity.
  - destruct (ascii_dec c c) as [_ | Hneq]; [exact IH | contradiction].
Qed.

(** A pattern found at the start is the occurrence replaced. *)
Lemma replace_at_start (pattern replacement s : string) :
  String.prefix pattern s = true ->
  replace pattern replacement s
  = replacement ++ String.substring (String.length pattern)
                     (String.length s - String.length pattern) s.
Proof. intros H. destruct s; cbn [replace]; rewrite H; reflexivity. Qed.

Lemma replace_leading_0x (rest : string) : replace "0x" "" ("0x" ++ rest) = rest.
Proof.
  rewrite replace_at_start by apply prefix_append.
  change ("0x" ++ rest) with (String "0" (String "x" rest)).
  cbn [String.length append Nat.sub String.substring].
  rewrite Nat.sub_0_r. apply substring_all.
Qed.

Lemma word_skip (a b : string) (n m : nat) :
  String.length a = 64 ->
  String.substring (64 + n) m (a ++ b) = String.substring n m b.
Proof. intros <-. apply substring_skip. Qed.

Lemma word_first (a b : string) :
  String.length a = 64 -> String.substring 0 64 (a ++ b) = a.
Proof. intros <-. apply substring_take. Qed.

Section Decode.
Variable parseIntRadix16 : string -> float.
Variable E : Engine.
Variable this : AztecContracts.AztecRPCClient.

(** X9.  For a payload of ["0x"] and six 64-digit words, [decodeResult]
    gives for ['get_profile_verifications'] six booleans, the i-th [false]
    exactly when the i-th word is all zeros; what follows the sixth word
    is ignored. *)
Theorem decodeResult_reads_six_words :
  forall (w0 w1 w2 w3 w4 w5 trailing : string),
    String.length w0 = 64 -> String.length w1 = 64 -> String.length w2 = 64 ->
    String.length w3 = 64 -> String.length w4 = 64 -> String.length w5 = 64 ->
    AztecContracts.decodeResult parseIntRadix16 E this "get_profile_verifications"
      ("0x" ++ w0 ++ w1 ++ w2 ++ w3 ++ w4 ++ w5 ++ trailing)
    = VArr [Observed.wordFlag w0; Observed.wordFlag w1; Observed.wordFlag w2; Observed.wordFlag w3; Observed.wordFlag w4; Observed.wordFlag w5].
Proof.
  intros w0 w1 w2 w3 w4 w5 trailing H0 H1 H2 H3 H4 H5.
  unfold AztecContracts.decodeResult. cbn [String.eqb Ascii.eqb Bool.eqb orb].
  rewrite replace_leading_0x.
  cbn [List.seq List.map Nat.mul Nat.add]. unfold slice.
  replace (64 - 0) with 64 by lia.
  replace (128 - 64) with 64 by lia.
  replace (192 - 128) with 64 by lia.
  replace (256 - 192) with 64 by lia.
  replace (320 - 256) with 64 by lia.
  replace (384 - 320) with 64 by lia.
  replace 320 with (64 + (64 + (64 + (64 + (64 + 0))))) by lia.
  replace 256 with (64 + (64 + (64 + (64 + 0)))) by lia.
  replace 192 with (64 + (64 + (64 + 0))) by lia.
  replace 128 with (64 + (64 + 0)) by lia.
  replace (String.substring 64 64) with (String.substring (64 + 0) 64) by reflexivity.
  rewrite !(word_skip w0) by exact H0.
  rewrite !(word_skip w1) by exact H1.
  rewrite !(word_skip w2) by exact H2.
  rewrite !(word_skip w3) by exact H3.
  rewrite !(word_skip w4) by exact H4.
  rewrite !word_first by assumption.
  reflexivity.
Qed.

(** X10.  [decodeResult] does not check the length of a flags payload: a
    word that is missing or cut short compares unequal to the zero word, so
    its flag comes out [true] (all six for the payload ["0x"]). *)
Theorem decodeResult_missing_word_is_true :
  forall (result : string) (i : nat),
    i < 6 ->
    String.length (replace "0x" "" result) < 64 * (i + 1) ->
    exists flags,
      AztecContracts.decodeResult parseIntRadix16 E this "get_profile_verifications" result
      = VArr flags
      /\ List.length flags = 6
      /\ List.nth_error flags i = Some (VBool true).
Proof.
  intros result i Hi Hshort.
  unfold AztecContracts.decodeResult. cbn [String.eqb Ascii.eqb Bool.eqb orb].
  eexists. split; [reflexivity |]. split; [reflexivity |].
  rewrite List.nth_error_map.
  rewrite (List.nth_error_nth' (List.seq 0 6) 0) by (rewrite List.length_seq; exact Hi).
  rewrite List.seq_nth by exact Hi. cbn [option_map Nat.add].
  do 2 f_equal. apply negb_true_iff, String.eqb_neq.
  intros Hword. apply (f_equal String.length) in Hword.
  pose proof (substring_length_le (i * 64) (i * 64 + 64 - i * 64)
                (replace "0x" "" result)) as Hle.
  unfold slice in Hword. change (String.length AztecContracts.zeroWord) with 64 in Hword.
  lia.
Qed.
End Decode.

Lemma decodeResult_reads_six_words_witness :
  AztecContracts.decodeResult (fun _ => 0%float) Scenario.engine0 Scenario.client
    "get_profile_verifications"
    ("0x" ++ AztecContracts.zeroWord ++ Scenario.oneWord ++ AztecContracts.zeroWord
          ++ AztecContracts.zeroWord ++ Scenario.oneWord ++ AztecContracts.zeroWord ++ "")
  = VArr [VBool false; VBool true; VBool false; VBool false; VBool true; VBool false].
Proof.
  apply (decodeResult_reads_six_words (fun _ => 0%float) Scenario.engine0 Scenario.client
           AztecContracts.zeroWord Scenario.oneWord AztecContracts.zeroWord
           AztecContracts.zeroWord Scenario.oneWord AztecContracts.zeroWord "");
    reflexivity.
Defined.

Lemma decodeResult_missing_word_is_true_witness :
  exists flags,
    AztecContracts.decodeResult (fun _ => 0%float) Scenario.engine0 Scenario.client
      "get_profile_verifications" "0x"
    = VArr flags
    /\ List.length flags = 6
    /\ List.nth_error flags 0 = Some (VBool true).
Proof.
  apply (decodeResult_missing_word_is_true (fun _ => 0%float) Scenario.engine0
           Scenario.client "0x" 0); simpl; lia.
Defined.

(** *** Parsing helpers, profile creation and the connection test *)

(** [randomFlags n] is [Array.from({ length: n }, () => Math.random() > 0.5)]:
    it takes the next [n] draws in order and compares each with [0.5]. *)
Lemma randomFlags_run (n : nat) : forall w,
  AztecContracts.randomFlags n w
  = (Normal (List.map (fun k => PrimFloat.ltb 0.5%float (randomSource w k))
               (List.seq (randomTaken w) n)),
     withRandomTaken (randomTaken w + n) w).
Proof.
  induction n as [| n IH]; intros w.
  - cbn [AztecContracts.randomFlags ret List.seq List.map]. rewrite Nat.add_0_r.
    destruct w; reflexivity.
  - cbn [AztecContracts.randomFlags]. unfold bind at 1, Math_random.
    unfold bind. rewrite IH. unfold ret.
    cbn [randomTaken randomSource withRandomTaken List.seq List.map].
    replace (S (randomTaken w) + n) with (randomTaken w + S n) by lia.
    reflexivity.
Qed.

(** [parseBoolean] accepts [true] and the strings ['true'], ['1'] and
    ['0x01'], and nothing else: the number [1] is [false]. *)
Lemma parseBoolean_true_iff :
  forall (this : AztecContracts.AztecContractClient) (result : Value),
    AztecContracts.parseBoolean this result = true
    <-> (result = VBool true \/ result = VStr "true" \/ result = VStr "1"
         \/ result = VStr "0x01").
Proof.
  intros this result. split.
  - destruct result as [| | b | x | s | items | fields]; simpl; try discriminate.
    + intros ->. left. reflexivity.
    + intros H. apply orb_true_iff in H. destruct H as [H | H].
      * apply orb_true_iff in H. destruct H as [H | H]; apply String.eqb_eq in H; subst; auto.
      * apply String.eqb_eq in H. subst. auto.
  - intros [-> | [-> | [-> | ->]]]; reflexivity.
Qed.

(** X11.  [parseVerificationArray] maps an array element by element through
    [parseBoolean] and draws nothing; for any other result it takes the next
    six [Math.random()] draws, and its answer is the list of six flags whose
    k-th entry tells whether the k-th of these draws is above [0.5]. *)
Theorem parseVerificationArray_flags :
  forall (this : AztecContracts.AztecContractClient) (result : Value) (w : World),
    let run := AztecContracts.parseVerificationArray this result w in
    exists flags,
      outcome run = Normal flags
      /\ (forall items, result = VArr items ->
            flags = List.map (AztecContracts.parseBoolean this) items
            /\ randomTaken (after run) = randomTaken w)
      /\ (isArray result = false ->
            flags = List.map (fun k => PrimFloat.ltb 0.5%float (randomSource w k))
                      (List.seq (randomTaken w) 6)
            /\ List.length flags = 6
            /\ randomTaken (after run) = randomTaken w + 6).
Proof.
  intros this result w run. subst run.
  destruct result as [| | b | x | s | items | fields];
    try (eexists; unfold AztecContracts.parseVerificationArray, outcome, after;
         rewrite randomFlags_run; split; [reflexivity |];
         split; [intros items Hitems; discriminate Hitems |];
         intros _; split; [reflexivity | split; reflexivity]).
  exists (List.map (AztecContracts.parseBoolean this) items).
  split; [reflexivity |]. split.
  - intros items' H. injection H as <-. split; reflexivity.
  - discriminate.
Qed.

(** X12.  For ['is_username_available'], [parseAztecResult] answers [true]
    whatever the node returned: a truthy result is [Boolean(result)], and a
    falsy one (also [false]) is replaced by the default, which is [true]. *)
Theorem parseAztecResult_username_always_available :
  forall (E : Engine) (this : AztecContracts.AztecRPCClient) (result : Value),
    AztecContracts.parseAztecResult E this "is_username_available" result
    = Normal (VBool true).
Proof.
  intros E this result. unfold AztecContracts.parseAztecResult.
  destruct (truthy result) eqn:Htruthy; cbn [negb].
  - reflexivity.
  - reflexivity.
Qed.

(** X13.  [AztecContractClient.createProfile] rethrows what the simulation
    threw; when the simulation returns, it reports [success: true] whatever
    value was returned. *)
Theorem createProfile_follows_simulation :
  forall (this : AztecContracts.AztecContractClient)
         (usernameHash tokenUriHash from : string) (w : World),
    match outcome (AztecContracts.simulateTransaction (AztecContracts.rpc this)
                     (AztecContracts.profileRegistryAddress this) "create_profile"
                     [VStr usernameHash; VStr tokenUriHash] w) with
    | Abrupt e =>
        outcome (AztecContracts.createProfile this usernameHash tokenUriHash from w)
        = Abrupt e
    | Normal _ =>
        exists receipt,
          outcome (AztecContracts.createProfile this usernameHash tokenUriHash from w)
          = Normal receipt
          /\ AztecContracts.success receipt = true
    end.
Proof.
  intros this usernameHash tokenUriHash from w.
  unfold AztecContracts.createProfile, tryCatch, bind, Math_random, ret, throw,
    consoleError, outcome.
  destruct (AztecContracts.simulateTransaction _ _ _ _ w) as [[r | e] w1]; simpl.
  - eexists. split; reflexivity.
  - reflexivity.
Qed.

Section Connection.
Variable stringToNumber : string -> float.

(** X14.  [testConnection] never throws; for a numeric block number it
    answers whether the number is above zero, and it answers [false] when
    the request fails. *)
Theorem testConnection_reads_block_number :
  forall (this : AztecContracts.AztecContractClient) (w : World),
    (exists connected,
        outcome (AztecContracts.testConnection stringToNumber this w) = Normal connected)
    /\ (forall x,
           outcome (AztecContracts.getBlockNumber (AztecContracts.rpc this) w)
           = Normal (VNum x) ->
           outcome (AztecContracts.testConnection stringToNumber this w)
           = Normal (PrimFloat.ltb 0%float x))
    /\ (forall e,
           network w (AztecContracts.blockNumberRequest (AztecContracts.rpc this)
                        :: requests w) = Abrupt e ->
           outcome (AztecContracts.testConnection stringToNumber this w) = Normal false).
Proof.
  intros this w.
  assert (Hnum : forall x,
           outcome (AztecContracts.getBlockNumber (AztecContracts.rpc this) w)
           = Normal (VNum x) ->
           outcome (AztecContracts.testConnection stringToNumber this w)
           = Normal (PrimFloat.ltb 0%float x)).
  { intros x. unfold AztecContracts.testConnection, tryCatch, bind, consoleLog, outcome.
    destruct (AztecContracts.getBlockNumber (AztecContracts.rpc this) w) as [[v | e] w1];
      simpl; intros H; [injection H as -> | discriminate H].
    reflexivity. }
  split; [| split].
  - unfold AztecContracts.testConnection, tryCatch, outcome.
    match goal with |- context [bind ?m ?k w] => destruct (bind m k w) as [[b | e] w1] end;
      eexists; reflexivity.
  - exact Hnum.
  - intros e Hnet. apply (Hnum 0%float).
    unfold AztecContracts.getBlockNumber, tryCatch, bind, fetch, consoleError, ret, outcome.
    rewrite Hnet. reflexivity.
Qed.
End Connection.

Lemma testConnection_reads_block_number_witness :
  outcome (AztecContracts.testConnection (fun _ => 0%float) AztecContracts.aztecContracts
             Scenario.noExtension)
  = Normal false.
Proof.
  apply (proj2 (proj2 (testConnection_reads_block_number (fun _ => 0%float)
                         AztecContracts.aztecContracts Scenario.noExtension))
           (TypeError "Failed to fetch")).
  reflexivity.
Defined.

(** ** Further properties of the account-abstraction stub *)

Local Open Scope nat_scope.

Lemma bytesToHex_length (bytes : list byte) :
  String.length (bytesToHex bytes) = 2 * List.length bytes.
Proof.
  induction bytes as [| b bytes IH]; [reflexivity |].
  rewrite bytesToHex_cons, string_append_length, IH.
  destruct (byteToHex_shape b) as [c1 [c2 ->]]. simpl. lia.
Qed.

(** X15.  [generateAAAddress] returns ["0x"] followed by 64 hex digits, the
    print of the next 32 bytes of [crypto.getRandomValues], and takes
    exactly those 32 bytes. *)
Theorem generateAAAddress_format :
  forall (this : AccountAbstraction.AztecAccountAbstraction) (w : World),
    let run := AccountAbstraction.generateAAAddress this w in
    exists digits,
      outcome run = Normal ("0x" ++ digits)
      /\ String.length digits = 64
      /\ digits = bytesToHex (List.map (entropy w) (List.seq (entropyTaken w) 32))
      /\ entropyTaken (after run) = entropyTaken w + 32.
Proof.
  intros this w run. subst run. rewrite generateAAAddress_run.
  eexists. split; [reflexivity |]. split; [| split; reflexivity].
  unfold Observed.draw. rewrite bytesToHex_length, List.length_map, List.length_seq.
  reflexivity.
Qed.

(** What the [try] block of [createAAAccount] has done when it completes. *)
Lemma createAAAccount_completed this w result this' w' :
  AccountAbstraction.createAAAccount this w = (Normal (result, this'), w') ->
  (AccountAbstraction.success result = true
   /\ exists account,
        AccountAbstraction.account_ result = Some account
        /\ AccountAbstraction.address_ result = Some (AccountAbstraction.address account)
        /\ AccountAbstraction.provider result = Some "account_abstraction"
        /\ AccountAbstraction.error result = None
        /\ this' = {| AccountAbstraction.account := Some account;
                      AccountAbstraction.pxe := AccountAbstraction.pxe this |})
  \/ (AccountAbstraction.success result = false
      /\ this' = this
      /\ AccountAbstraction.address_ result = None
      /\ AccountAbstraction.account_ result = None
      /\ exists message, AccountAbstraction.error result = Some message).
Proof.
  intros Hrun.
  unfold AccountAbstraction.createAAAccount, tryCatch in Hrun.
  match type of Hrun with
  | (match ?body w with _ => _ end) = _ =>
      destruct (body w) as [[[result0 this0] | e] w0] eqn:Hbody
  end.
  2: { right. cbv [bind consoleError ret] in Hrun. injection Hrun as <- <- _.
       repeat split. eexists. reflexivity. }
  left. injection Hrun as -> -> ->.
  do 4 logged Hbody.
  ran Hbody statusResponse Hstatus.
  destruct (ok statusResponse); [| discriminate Hbody]. cbn [negb] in Hbody.
  ran Hbody statusResult HstatusJson.
  do 2 logged Hbody.
  peel Hbody aaAddress w3 Haddress.
  rewrite generateAAAddress_run in Haddress.
  apply run_eq in Haddress. destruct Haddress as [Haddress <-]. worlds Hbody.
  peel Hbody argsHash w4 Hhash.
  apply hashString_inv in Hhash. destruct Hhash as (digest & Hdigest & Hhash & <-).
  ran Hbody r Hrandom.
  logged Hbody.
  ran Hbody createResponse Hcreate.
  destruct (ok createResponse); [| discriminate Hbody]. cbn [negb] in Hbody.
  ran Hbody createResult HcreateJson.
  logged Hbody.
  ran Hbody rpcResult Hresult.
  ran Hbody served' Hserved'.
  peel Hbody chosen w11 Hchoice.
  ran Hbody rpcResult' Hresult'.
  ran Hbody txHash Htx.
  do 2 logged Hbody.
  peel Hbody u w12 Hlink.
  apply run_eq in Hbody. destruct Hbody as [Hbody _].
  apply normal_eq in Hbody. injection Hbody as <- <-.
  split; [reflexivity |]. eexists. repeat split.
Qed.

Lemma bind_run {A B} (m : M A) (k : A -> M B) w a w1 :
  m w = (Normal a, w1) -> bind m k w = k a w1.
Proof. intros H. unfold bind. rewrite H. reflexivity. Qed.

Lemma bind_stop {A B} (m : M A) (k : A -> M B) w e w1 :
  m w = (Abrupt e, w1) -> bind m k w = (Abrupt e, w1).
Proof. intros H. unfold bind. rewrite H. reflexivity. Qed.

Ltac worlds_goal :=
  cbn [engine console randomSource randomTaken entropy entropyTaken network requests
       sha256 windowOpen opened origin extInstalled extCreate extConnect clients
       azguardInstance withConsole withRandomTaken withEntropyTaken withRequests].

(** Run the first statement of a sequence, given that it completes. *)
Ltac forward := erewrite bind_run by reflexivity; worlds_goal.
Ltac forward_with H :=
  erewrite bind_run
    by (cbv [Host.fetch AccountAbstraction.post responseJson lift templateString];
        worlds_goal; rewrite H; reflexivity);
  worlds_goal.

Lemma hashString_run_sha this input w digest :
  sha256 w (utf8 input) = Normal digest ->
  AccountAbstraction.hashString this input w = (Normal ("0x" ++ bytesToHex digest), w).
Proof.
  intros H. unfold AccountAbstraction.hashString, bind, subtleDigest, ret.
  rewrite H. reflexivity.
Qed.

(** A run of [createAAAccount] in which every step completes: both replies
    have an ok status and parse as JSON, the digest resolves, the creation
    body can be read, and the transaction hash, when there is one, can be
    printed. *)
Lemma createAAAccount_run_succeeds :
  forall (this : AccountAbstraction.AztecAccountAbstraction) (w : World)
         (statusResponse createResponse : Response) (statusBody body : Value)
         (digest : list byte) (rpcResult served txHash : Value),
    network w (Observed.statusRequest :: requests w) = Normal statusResponse ->
    ok statusResponse = true ->
    json statusResponse = Normal statusBody ->
    sha256 w (utf8 ("0x" ++ bytesToHex (Observed.firstDraw w))) = Normal digest ->
    network w (Observed.deployRequest w digest :: Observed.statusRequest :: requests w)
    = Normal createResponse ->
    ok createResponse = true ->
    json createResponse = Normal body ->
    getProp body "result" = Normal rpcResult ->
    getPropOpt rpcResult "address" = Normal served ->
    getPropOpt rpcResult "transactionHash" = Normal txHash ->
    (truthy txHash = true -> exists text, ToString (engine w) txHash = Normal text) ->
    let run := AccountAbstraction.createAAAccount this w in
    let address := if truthy served then served
                   else VStr ("0x" ++ bytesToHex (Observed.secondDraw w)) in
    exists result this',
      outcome run = Normal (result, this')
      /\ AccountAbstraction.success result = true
      /\ AccountAbstraction.address_ result = Some address
      /\ entropyTaken (after run)
         = (if truthy served then entropyTaken w + 32 else entropyTaken w + 64).
Proof.
  intros this w statusResponse createResponse statusBody body digest rpcResult served txHash
    Hstatus Hok HstatusJson Hdigest Hcreate Hok' Hjson Hresult Hserved Htx Hprint run address.
  subst run address.
  unfold AccountAbstraction.createAAAccount, tryCatch, outcome, after.
  do 4 forward.
  unfold Observed.statusRequest, Observed.deployRequest, Observed.firstDraw,
    Observed.secondDraw, Observed.draw in *.
  forward_with Hstatus.
  rewrite Hok. cbn [negb].
  forward_with HstatusJson.
  do 2 forward.
  erewrite bind_run by apply generateAAAddress_run. worlds_goal.
  unfold Observed.draw. worlds_goal.
  erewrite bind_run by (apply hashString_run_sha; worlds_goal; exact Hdigest).
  do 2 forward.
  forward_with Hcreate.
  rewrite Hok'. cbn [negb].
  forward_with Hjson.
  forward.
  forward_with Hresult.
  forward_with Hserved.
  destruct (truthy served) eqn:Hserved_truthy.
  - forward. forward_with Hresult. forward_with Htx. do 2 forward.
    destruct (truthy txHash) eqn:Htruthy.
    + destruct (Hprint eq_refl) as [text Htext].
      erewrite bind_run
        by (forward; forward_with Htext; reflexivity).
      worlds_goal. do 2 eexists. repeat split.
    + forward. do 2 eexists. repeat split.
  - erewrite bind_run
      by (erewrite bind_run by apply generateAAAddress_run; reflexivity).
    worlds_goal. unfold Observed.draw. worlds_goal.
    forward_with Hresult. forward_with Htx. do 2 forward.
    destruct (truthy txHash) eqn:Htruthy.
    + destruct (Hprint eq_refl) as [text Htext].
      erewrite bind_run
        by (forward; forward_with Htext; reflexivity).
      worlds_goal. do 2 eexists. repeat split. simpl. lia.
    + forward. do 2 eexists. repeat split. simpl. lia.
Qed.

(** The same run when the transaction hash is there but cannot be printed:
    the template literal of the explorer line throws, after the address was
    chosen and before the account is stored. *)
Lemma createAAAccount_unprintable_hash :
  forall (this : AccountAbstraction.AztecAccountAbstraction) (w : World)
         (statusResponse createResponse : Response) (statusBody body : Value)
         (digest : list byte) (rpcResult served txHash : Value) (e : Thrown),
    network w (Observed.statusRequest :: requests w) = Normal statusResponse ->
    ok statusResponse = true ->
    json statusResponse = Normal statusBody ->
    sha256 w (utf8 ("0x" ++ bytesToHex (Observed.firstDraw w))) = Normal digest ->
    network w (Observed.deployRequest w digest :: Observed.statusRequest :: requests w)
    = Normal createResponse ->
    ok createResponse = true ->
    json createResponse = Normal body ->
    getProp body "result" = Normal rpcResult ->
    getPropOpt rpcResult "address" = Normal served ->
    getPropOpt rpcResult "transactionHash" = Normal txHash ->
    truthy txHash = true ->
    ToString (engine w) txHash = Abrupt e ->
    outcome (AccountAbstraction.createAAAccount this w)
    = Normal ({| AccountAbstraction.success := false;
                 AccountAbstraction.address_ := None;
                 AccountAbstraction.account_ := None;
                 AccountAbstraction.provider := None;
                 AccountAbstraction.error := Some (messageOr "Unknown error occurred" e) |},
              this).
Proof.
  intros this w statusResponse createResponse statusBody body digest rpcResult served txHash e
    Hstatus Hok HstatusJson Hdigest Hcreate Hok' Hjson Hresult Hserved Htx Htruthy Hprint.
  unfold AccountAbstraction.createAAAccount, tryCatch, outcome.
  do 4 forward.
  unfold Observed.statusRequest, Observed.deployRequest, Observed.firstDraw,
    Observed.secondDraw, Observed.draw in *.
  forward_with Hstatus.
  rewrite Hok. cbn [negb].
  forward_with HstatusJson.
  do 2 forward.
  erewrite bind_run by apply generateAAAddress_run. worlds_goal.
  unfold Observed.draw. worlds_goal.
  erewrite bind_run by (apply hashString_run_sha; worlds_goal; exact Hdigest).
  do 2 forward.
  forward_with Hcreate.
  rewrite Hok'. cbn [negb].
  forward_with Hjson.
  forward.
  forward_with Hresult.
  forward_with Hserved.
  destruct (truthy served) eqn:Hserved_truthy.
  - forward. forward_with Hresult. forward_with Htx. do 2 forward.
    rewrite Htruthy.
    erewrite bind_stop
      by (forward; unfold bind, templateString; worlds_goal; rewrite Hprint; reflexivity).
    reflexivity.
  - erewrite bind_run
      by (erewrite bind_run by apply generateAAAddress_run; reflexivity).
    worlds_goal. unfold Observed.draw. worlds_goal.
    forward_with Hresult. forward_with Htx. do 2 forward.
    rewrite Htruthy.
    erewrite bind_stop
      by (forward; unfold bind, templateString; worlds_goal; rewrite Hprint; reflexivity).
    reflexivity.
Qed.

(** X16.  Take a run of [createAAAccount] in which both replies have an ok
    status and parse as JSON, the digest resolves and the creation body is
    neither [null] nor [undefined].  The only other thing of the replies
    that decides the outcome is [result.transactionHash], which is printed
    into the explorer line when it is truthy.  If it is falsy or can be
    printed, the call succeeds: the address returned is the served
    [result.address] when that is truthy (32 random bytes were then spent,
    on the deployment address only), and a second random address otherwise
    (64 bytes spent).  If it is truthy and printing it throws, the call
    reports failure with the message of that exception and stores
    nothing. *)
Theorem createAAAccount_succeeds :
  forall (this : AccountAbstraction.AztecAccountAbstraction) (w : World)
         (statusResponse createResponse : Response) (statusBody body : Value)
         (digest : list byte) (rpcResult served txHash : Value),
    network w (Observed.statusRequest :: requests w) = Normal statusResponse ->
    ok statusResponse = true ->
    json statusResponse = Normal statusBody ->
    sha256 w (utf8 ("0x" ++ bytesToHex (Observed.firstDraw w))) = Normal digest ->
    network w (Observed.deployRequest w digest :: Observed.statusRequest :: requests w)
    = Normal createResponse ->
    ok createResponse = true ->
    json createResponse = Normal body ->
    getProp body "result" = Normal rpcResult ->
    getPropOpt rpcResult "address" = Normal served ->
    getPropOpt rpcResult "transactionHash" = Normal txHash ->
    let run := AccountAbstraction.createAAAccount this w in
    let address := if truthy served then served
                   else VStr ("0x" ++ bytesToHex (Observed.secondDraw w)) in
    ((truthy txHash = true -> exists text, ToString (engine w) txHash = Normal text) ->
     exists result this',
       outcome run = Normal (result, this')
       /\ AccountAbstraction.success result = true
       /\ AccountAbstraction.address_ result = Some address
       /\ entropyTaken (after run)
          = (if truthy served then entropyTaken w + 32 else entropyTaken w + 64))
    /\ (forall e,
          truthy txHash = true ->
          ToString (engine w) txHash = Abrupt e ->
          outcome run
          = Normal ({| AccountAbstraction.success := false;
                       AccountAbstraction.address_ := None;
                       AccountAbstraction.account_ := None;
                       AccountAbstraction.provider := None;
                       AccountAbstraction.error :=
                         Some (messageOr "Unknown error occurred" e) |}, this)).
Proof.
  intros this w statusResponse createResponse statusBody body digest rpcResult served txHash
    Hstatus Hok HstatusJson Hdigest Hcreate Hok' Hjson Hresult Hserved Htx run address.
  subst run address. split.
  - intros Hprint.
    exact (createAAAccount_run_succeeds this w statusResponse createResponse statusBody body
             digest rpcResult served txHash Hstatus Hok HstatusJson Hdigest Hcreate Hok'
             Hjson Hresult Hserved Htx Hprint).
  - intros e Htruthy Hprint.
    exact (createAAAccount_unprintable_hash this w statusResponse createResponse statusBody
             body digest rpcResult served txHash e Hstatus Hok HstatusJson Hdigest Hcreate
             Hok' Hjson Hresult Hserved Htx Htruthy Hprint).
Qed.


(** X18.  [createAAAccount] never throws.  When it reports failure, the
    object is left as it was (an account held from before is kept) and an
    error text is given; when it reports success, the account it returns is
    the one now held, with the returned address, and [pxe] is untouched. *)
Theorem createAAAccount_keeps_state_on_failure :
  forall (this : AccountAbstraction.AztecAccountAbstraction) (w : World),
    exists result this',
      outcome (AccountAbstraction.createAAAccount this w) = Normal (result, this')
      /\ (AccountAbstraction.success result = false ->
          this' = this
          /\ AccountAbstraction.address_ result = None
          /\ exists message, AccountAbstraction.error result = Some message)
      /\ (AccountAbstraction.success result = true ->
          exists account,
            AccountAbstraction.getCurrentAccount this' = Some account
            /\ AccountAbstraction.account_ result = Some account
            /\ AccountAbstraction.address_ result = Some (AccountAbstraction.address account)
            /\ AccountAbstraction.pxe this' = AccountAbstraction.pxe this).
Proof.
  intros this w.
  destruct (AccountAbstraction.createAAAccount this w) as [[[result this'] | e] w'] eqn:Hrun.
  - exists result, this'. split; [reflexivity |].
    destruct (createAAAccount_completed _ _ _ _ _ Hrun)
      as [(Htrue & account & Haccount & Haddress & _ & _ & ->)
         | (Hfalse & -> & Haddress & _ & Hmessage)].
    + split; [congruence |]. intros _. exists account. repeat split; assumption.
    + split; [| congruence]. intros _. repeat split; assumption.
  - exfalso. unfold AccountAbstraction.createAAAccount, tryCatch in Hrun.
    match type of Hrun with
    | (match ?body w with _ => _ end) = _ => destruct (body w) as [[r | e'] w0]
    end; discriminate Hrun.
Qed.

(** X19.  When the node probe of [createAAAccount] fails, by a rejected
    [fetch] or by a reply whose status is not ok, the call stops there: one
    request was sent, no random byte was taken, the object is unchanged,
    and the error text is the rejection's message, respectively
    ["PXE connection failed: HTTP <status>"]. *)
Theorem createAAAccount_reports_probe_failure :
  forall (this : AccountAbstraction.AztecAccountAbstraction) (w : World),
    let run := AccountAbstraction.createAAAccount this w in
    let failure (message : string) :=
      outcome run
      = Normal ({| AccountAbstraction.success := false;
                   AccountAbstraction.address_ := None;
                   AccountAbstraction.account_ := None;
                   AccountAbstraction.provider := None;
                   AccountAbstraction.error := Some message |}, this)
      /\ requests (after run) = Observed.statusRequest :: requests w
      /\ entropyTaken (after run) = entropyTaken w in
    (forall e,
        network w (Observed.statusRequest :: requests w) = Abrupt e ->
        failure (messageOr "Unknown error occurred" e))
    /\ (forall response,
           network w (Observed.statusRequest :: requests w) = Normal response ->
           ok response = false ->
           failure ("PXE connection failed: HTTP " ++ integerToString (status response))).
Proof.
  intros this w run failure. subst run failure. cbv beta.
  assert (Hshape : forall message W,
             AccountAbstraction.createAAAccount this w
             = (Normal ({| AccountAbstraction.success := false;
                           AccountAbstraction.address_ := None;
                           AccountAbstraction.account_ := None;
                           AccountAbstraction.provider := None;
                           AccountAbstraction.error := Some message |}, this), W) ->
             requests W = Observed.statusRequest :: requests w ->
             entropyTaken W = entropyTaken w ->
             outcome (AccountAbstraction.createAAAccount this w)
             = Normal ({| AccountAbstraction.success := false;
                          AccountAbstraction.address_ := None;
                          AccountAbstraction.account_ := None;
                          AccountAbstraction.provider := None;
                          AccountAbstraction.error := Some message |}, this)
             /\ requests (after (AccountAbstraction.createAAAccount this w))
                = Observed.statusRequest :: requests w
             /\ entropyTaken (after (AccountAbstraction.createAAAccount this w))
                = entropyTaken w).
  { intros message W -> Hrequests Hentropy. repeat split; assumption. }
  unfold Observed.statusRequest in *.
  split.
  - intros e Hnet. eapply Hshape.
    + unfold AccountAbstraction.createAAAccount, tryCatch. do 4 forward.
      unfold bind at 1, AccountAbstraction.post, fetch. worlds_goal. rewrite Hnet.
      reflexivity.
    + reflexivity.
    + reflexivity.
  - intros response Hnet Hbad. eapply Hshape.
    + unfold AccountAbstraction.createAAAccount, tryCatch. do 4 forward.
      forward_with Hnet. rewrite Hbad. reflexivity.
    + reflexivity.
    + reflexivity.
Qed.

Lemma createAAAccount_succeeds_witness :
  (exists result this',
      outcome (AccountAbstraction.createAAAccount AccountAbstraction.aztecAccountAbstraction
                 Scenario.deployingNode) = Normal (result, this')
      /\ AccountAbstraction.success result = true
      /\ AccountAbstraction.address_ result
         = Some (VStr "0x202122232425262728292a2b2c2d2e2f303132333435363738393a3b3c3d3e3f"))
  /\ outcome (AccountAbstraction.createAAAccount AccountAbstraction.aztecAccountAbstraction
                Scenario.opaqueHashNode)
     = Normal ({| AccountAbstraction.success := false;
                  AccountAbstraction.address_ := None;
                  AccountAbstraction.account_ := None;
                  AccountAbstraction.provider := None;
                  AccountAbstraction.error :=
                    Some "Cannot convert object to primitive value" |},
               AccountAbstraction.aztecAccountAbstraction).
Proof.
  split.
  - destruct (createAAAccount_succeeds AccountAbstraction.aztecAccountAbstraction
                Scenario.deployingNode
                (Scenario.okResponse Scenario.deployedBody)
                (Scenario.okResponse Scenario.deployedBody)
                Scenario.deployedBody Scenario.deployedBody
                (utf8 ("0x" ++ bytesToHex (Observed.firstDraw Scenario.deployingNode)))
                (VObj [("transactionHash", VStr "0x1f")]) VUndefined (VStr "0x1f")
                eq_refl eq_refl eq_refl eq_refl eq_refl eq_refl eq_refl eq_refl eq_refl
                eq_refl) as [Hprintable _].
    destruct Hprintable as (result & this' & Hout & Hsuccess & Haddress & _).
    + intros _. eexists. reflexivity.
    + exists result, this'. split; [exact Hout |]. split; [exact Hsuccess |].
      rewrite Haddress. vm_compute. reflexivity.
  - destruct (createAAAccount_succeeds AccountAbstraction.aztecAccountAbstraction
                Scenario.opaqueHashNode
                (Scenario.okResponse Scenario.opaqueHashBody)
                (Scenario.okResponse Scenario.opaqueHashBody)
                Scenario.opaqueHashBody Scenario.opaqueHashBody
                (utf8 ("0x" ++ bytesToHex (Observed.firstDraw Scenario.opaqueHashNode)))
                (VObj [("transactionHash", VObj [("toString", VNum 1)])]) VUndefined
                (VObj [("toString", VNum 1)])
                eq_refl eq_refl eq_refl eq_refl eq_refl eq_refl eq_refl eq_refl eq_refl
                eq_refl) as [_ Hopaque].
    exact (Hopaque (TypeError "Cannot convert object to primitive value") eq_refl eq_refl).
Defined.


Lemma createAAAccount_reports_probe_failure_witness :
  outcome (AccountAbstraction.createAAAccount AccountAbstraction.aztecAccountAbstraction
             Scenario.unavailableNode)
  = Normal ({| AccountAbstraction.success := false;
               AccountAbstraction.address_ := None;
               AccountAbstraction.account_ := None;
               AccountAbstraction.provider := None;
               AccountAbstraction.error := Some "PXE connection failed: HTTP 503" |},
            AccountAbstraction.aztecAccountAbstraction).
Proof.
  apply (proj2 (createAAAccount_reports_probe_failure
                  AccountAbstraction.aztecAccountAbstraction Scenario.unavailableNode)
           _ eq_refl eq_refl).
Defined.

(** ** Further properties of the wallet connector *)

Ltac pages :=
  cbn [engine console randomSource randomTaken entropy entropyTaken network requests
       sha256 windowOpen opened origin extInstalled extCreate extConnect clients
       azguardInstance withConsole withRandomTaken withEntropyTaken withRequests
       withOpened withClients withAzguardInstance].

Ltac went := erewrite bind_run by reflexivity; pages.
Ltac went_with H :=
  erewrite bind_run
    by (cbv [AzguardClientTs.isAzguardInstalled AzguardClientTs.AzguardClient_create
             AzguardClientTs.connect];
        pages; rewrite H; reflexivity);
  pages.

Lemma parseAddress_run (fullAccount : Value) (W : World) :
  exists W',
    AzguardClientTs.parseAddress fullAccount W = (Normal (Observed.parsed fullAccount), W')
    /\ clients W' = clients W.
Proof.
  unfold AzguardClientTs.parseAddress, Observed.parsed.
  destruct fullAccount as [| | b | x | text | items | fields];
    try (exists W; split; reflexivity).
  destruct (includes ":" text).
  - eexists. split; reflexivity.
  - exists W. split; reflexivity.
Qed.

Ltac parsing :=
  match goal with
  | |- context [bind (AzguardClientTs.parseAddress ?v) _ ?W] =>
      let W' := fresh "W'" in
      let Hparse := fresh "Hparse" in
      destruct (parseAddress_run v W) as [W' [Hparse Hclients]];
      erewrite bind_run by exact Hparse
  end.

(** X20.  Once the extension is installed and has handed out a client,
    [connectAzGuard] depends on the session only: [connect] is called just
    when the client is not connected yet; a rejected connection gives
    failure with the rejection's message; a session without accounts gives
    failure with ['No account returned from AzGuard']; otherwise the call
    succeeds with the address parsed from the first account, and stores the
    client in [azguardInstance].  Every failure leaves [azguardInstance]
    [null]. *)
Theorem connectAzGuard_after_session (w : World) (isInstalled : Value) (azguard : ClientRef) :
  extInstalled w = Normal isInstalled ->
  truthy isInstalled = true ->
  extCreate w = Normal (Some azguard) ->
  let run := AzguardClientTs.connectAzGuard w in
  match Observed.session w azguard with
  | Abrupt e =>
      outcome run
      = Normal (Observed.connectionFailure (messageOr "Failed to connect to AzGuard" e))
      /\ azguardInstance (after run) = None
      /\ clients (after run) = clients w
  | Normal state =>
      if negb (truthy (accounts state)) || lengthIsZero (accounts state) then
        outcome run
        = Normal (Observed.connectionFailure "No account returned from AzGuard")
        /\ azguardInstance (after run) = None
      else
        let fullAccount := first (accounts state) in
        let address := Observed.parsed fullAccount in
        outcome run
        = Normal {| AzguardClientTs.success := true;
                    AzguardClientTs.account :=
                      Some (AzguardClientTs.createAccountWrapper address fullAccount azguard);
                    AzguardClientTs.address_ := Some address;
                    AzguardClientTs.provider := Some "azguard";
                    AzguardClientTs.error := None |}
        /\ azguardInstance (after run) = Some azguard
        /\ clients (after run) azguard = state
  end.
Proof.
  intros Hinstalled Htruthy Hcreate run. subst run.
  unfold Observed.session, Observed.dappMetadata, Observed.permissions.
  unfold AzguardClientTs.connectAzGuard, tryCatch, AzguardClientTs.connectAzGuard_try,
    outcome, after.
  went. went_with Hinstalled. rewrite Htruthy. cbn [negb].
  went. went_with Hcreate. went. went.
  destruct (truthy (connected (clients w azguard))) eqn:Hconnected; cbn [negb].
  - went. went. went.
    destruct (negb (truthy (accounts (clients w azguard)))
              || lengthIsZero (accounts (clients w azguard))).
    + cbv [throw AzguardClientTs.connectAzGuard_catch bind consoleError
             AzguardClientTs.setAzguardInstance ret]. pages. cbn [fst snd]. repeat split.
    + parsing. went. unfold ret. cbn [fst snd]. pages. rewrite Hclients. pages.
      repeat split.
  - destruct (extConnect w azguard _ _) as [state | e] eqn:Hconnect.
    + erewrite bind_run
        by (went; went; unfold AzguardClientTs.connect; pages; rewrite Hconnect;
            reflexivity).
      pages. went. went. rewrite Nat.eqb_refl.
      destruct (negb (truthy (accounts state)) || lengthIsZero (accounts state)).
      * cbv [throw AzguardClientTs.connectAzGuard_catch bind consoleError
               AzguardClientTs.setAzguardInstance ret]. pages. cbn [fst snd]. repeat split.
      * parsing. went. unfold ret. cbn [fst snd]. pages. rewrite Hclients. pages.
        rewrite Nat.eqb_refl. repeat split.
    + erewrite bind_stop
        by (went; went; unfold AzguardClientTs.connect; pages; rewrite Hconnect;
            reflexivity).
      cbv [AzguardClientTs.connectAzGuard_catch bind consoleError
             AzguardClientTs.setAzguardInstance ret]. pages. cbn [fst snd]. repeat split.
Qed.

(** X21.  When the extension itself lets [connectAzGuard] down, the result
    is a failure and [azguardInstance] is [null]: a rejected installation
    probe or a rejected [create()] gives the rejection's message (or
    ['Failed to connect to AzGuard'] for a thrown non-Error), and a falsy
    client gives ['Failed to initialize AzGuard client']. *)
Theorem connectAzGuard_extension_failures :
  forall (w : World),
    let run := AzguardClientTs.connectAzGuard w in
    let failsWith (message : string) :=
      outcome run = Normal (Observed.connectionFailure message)
      /\ azguardInstance (after run) = None in
    (forall e, extInstalled w = Abrupt e ->
               failsWith (messageOr "Failed to connect to AzGuard" e))
    /\ (forall isInstalled e,
           extInstalled w = Normal isInstalled -> truthy isInstalled = true ->
           extCreate w = Abrupt e ->
           failsWith (messageOr "Failed to connect to AzGuard" e))
    /\ (forall isInstalled,
           extInstalled w = Normal isInstalled -> truthy isInstalled = true ->
           extCreate w = Normal None ->
           failsWith "Failed to initialize AzGuard client").
Proof.
  intros w run failsWith. subst run failsWith. cbv beta.
  unfold AzguardClientTs.connectAzGuard, tryCatch, AzguardClientTs.connectAzGuard_try,
    outcome, after.
  split; [| split].
  - intros e Hinstalled. went.
    erewrite bind_stop
      by (unfold AzguardClientTs.isAzguardInstalled; pages; rewrite Hinstalled; reflexivity).
    cbv [AzguardClientTs.connectAzGuard_catch bind consoleError
           AzguardClientTs.setAzguardInstance ret]. pages. cbn [fst snd]. repeat split.
  - intros isInstalled e Hinstalled Htruthy Hcreate.
    went. went_with Hinstalled. rewrite Htruthy. cbn [negb]. went.
    erewrite bind_stop
      by (unfold AzguardClientTs.AzguardClient_create; pages; rewrite Hcreate; reflexivity).
    cbv [AzguardClientTs.connectAzGuard_catch bind consoleError
           AzguardClientTs.setAzguardInstance ret]. pages. cbn [fst snd]. repeat split.
  - intros isInstalled Hinstalled Htruthy Hcreate.
    went. went_with Hinstalled. rewrite Htruthy. cbn [negb]. went.
    went_with Hcreate.
    cbv [throw AzguardClientTs.connectAzGuard_catch bind consoleError
           AzguardClientTs.setAzguardInstance ret]. pages. cbn [fst snd]. repeat split.
Qed.



(** X23.  [isAzGuardAvailable] passes on what the installation probe
    resolves to and touches nothing; when the probe rejects, it logs once
    and returns [false] instead of throwing.  It never opens a window and
    never changes [azguardInstance]. *)
Theorem isAzGuardAvailable_never_throws :
  forall (w : World),
    let run := AzguardClientTs.isAzGuardAvailable w in
    (forall v, extInstalled w = Normal v -> run = (Normal v, w))
    /\ (forall e, extInstalled w = Abrupt e ->
                  outcome run = Normal (VBool false)
                  /\ console (after run)
                     = (Err, "Error checking AzGuard availability:") :: console w)
    /\ azguardInstance (after run) = azguardInstance w
    /\ opened (after run) = opened w.
Proof.
  intros w run. subst run.
  unfold AzguardClientTs.isAzGuardAvailable, tryCatch, AzguardClientTs.isAzguardInstalled,
    bind, consoleError, ret, outcome, after.
  destruct (extInstalled w) as [v | e]; cbn [fst snd]; pages.
  - split; [| split; [| split; reflexivity]].
    + intros v' Hv. injection Hv as <-. reflexivity.
    + intros e' He. discriminate He.
  - split; [| split; [| split; reflexivity]].
    + intros v Hv. discriminate Hv.
    + intros e' He. split; reflexivity.
Qed.

(** X24.  The account wrapper's [signMessage] uses no key and no wallet:
    the "signature" is ["0x"] and the hex print of the SHA-256 digest of
    the message (two digits per byte), the same for every account. *)
Theorem signMessage_uses_no_key :
  forall (wrapper wrapper' : AzguardClientTs.AccountWrapper) (msg : string) (w : World)
         (digest : list byte),
    sha256 w (utf8 msg) = Normal digest ->
    exists signature,
      AzguardClientTs.signMessage wrapper msg w = (Normal signature, w)
      /\ AzguardClientTs.signMessage wrapper' msg w = (Normal signature, w)
      /\ signature = "0x" ++ bytesToHex digest
      /\ String.length signature = 2 + 2 * List.length digest.
Proof.
  intros wrapper wrapper' msg w digest Hdigest.
  exists ("0x" ++ bytesToHex digest).
  unfold AzguardClientTs.signMessage, bind, subtleDigest, ret. rewrite Hdigest.
  repeat split. cbn [String.length append]. rewrite bytesToHex_length. lia.
Qed.

Lemma connectAzGuard_after_session_witness :
  (outcome (AzguardClientTs.connectAzGuard Scenario.lockedWallet)
   = Normal (Observed.connectionFailure "User rejected the request")
   /\ azguardInstance (after (AzguardClientTs.connectAzGuard Scenario.lockedWallet)) = None)
  /\ azguardInstance (after (AzguardClientTs.connectAzGuard Scenario.walletReady))
     = Some 0.
Proof.
  split.
  - pose proof (connectAzGuard_after_session Scenario.lockedWallet (VBool true) 0
                  eq_refl eq_refl eq_refl) as (Hout & Hinstance & _).
    split; [exact Hout | exact Hinstance].
  - pose proof (connectAzGuard_after_session Scenario.walletReady (VBool true) 0
                  eq_refl eq_refl eq_refl) as (_ & Hinstance & _).
    exact Hinstance.
Defined.

Lemma connectAzGuard_extension_failures_witness :
  outcome (AzguardClientTs.connectAzGuard Scenario.staleClient)
  = Normal (Observed.connectionFailure "extension unavailable").
Proof.
  apply (proj1 (proj2 (connectAzGuard_extension_failures Scenario.staleClient))
           (VBool true) (Error "extension unavailable")); reflexivity.
Defined.


Lemma signMessage_uses_no_key_witness :
  exists signature,
    AzguardClientTs.signMessage
      (AzguardClientTs.createAccountWrapper (VStr "0xABC") (VStr "aztec:11155111:0xABC") 0)
      "hi" Scenario.walletReady = (Normal signature, Scenario.walletReady)
    /\ AzguardClientTs.signMessage
         (AzguardClientTs.createAccountWrapper (VStr "0xDEF") (VStr "aztec:11155111:0xDEF") 1)
         "hi" Scenario.walletReady = (Normal signature, Scenario.walletReady)
    /\ signature = "0x6869".
Proof.
  destruct (signMessage_uses_no_key
              (AzguardClientTs.createAccountWrapper (VStr "0xABC")
                 (VStr "aztec:11155111:0xABC") 0)
              (AzguardClientTs.createAccountWrapper (VStr "0xDEF")
                 (VStr "aztec:11155111:0xDEF") 1)
              "hi" Scenario.walletReady (utf8 "hi") eq_refl)
    as (signature & Hone & Hother & Hvalue & _).
  exists signature. split; [exact Hone |]. split; [exact Hother | exact Hvalue].
Defined.
